(** * homework_bot: a shallow embedding of [homework.py]

    The bot polls the homework-review API, turns the status of the most
    recent homework into a sentence and forwards it to a Telegram chat.
    The functions below follow [homework.py] one by one and keep its names.

    - Python values decoded from JSON are the inductive type [value].
    - Exceptions are values of [exn]; a fallible pure function returns a
      [result]; a function that also talks to the outside (HTTP request,
      Telegram, logger, sleep) returns [M A]: its result together with the
      events it emitted, in order.
    - What the outside does (the HTTP answer, the Telegram client) is an
      input of each poll cycle, [cycle_io]. *)

From Stdlib Require Import String Ascii List ZArith Lia Bool.
From Stdlib Require Import DecimalString.
Import ListNotations.
Open Scope string_scope.
Set Warnings "-register-all".

(** ** Python values *)

(** A decoded JSON document.  A float is kept as the text Python prints for
    it (no arithmetic is ever done on one).  A dict is the list of its items
    in insertion order; a lookup takes the first item with the key. *)
Inductive value : Type :=
| VNone
| VBool (b : bool)
| VInt (z : Z)
| VFloat (text : string)
| VStr (s : string)
| VList (items : list value)
| VDict (items : list (string * value)).

(** [bool(v)]: Python's truth value. *)
Definition truthy (v : value) : bool :=
  match v with
  | VNone => false
  | VBool b => b
  | VInt z => negb (z =? 0)%Z
  | VFloat t => negb ((t =? "0.0") || (t =? "-0.0"))
  | VStr s => negb (s =? "")
  | VList l => match l with [] => false | _ => true end
  | VDict d => match d with [] => false | _ => true end
  end.

(** [type(v).__name__] *)
Definition type_name (v : value) : string :=
  match v with
  | VNone => "NoneType"
  | VBool _ => "bool"
  | VInt _ => "int"
  | VFloat _ => "float"
  | VStr _ => "str"
  | VList _ => "list"
  | VDict _ => "dict"
  end.

(** [str(type(v))], as an f-string prints [{type(v)}]. *)
Definition str_type (v : value) : string :=
  "<class '" ++ type_name v ++ "'>".

(** [isinstance(v, list)] and [isinstance(v, int)]; [bool] is a subclass
    of [int]. *)
Definition isinstance_list (v : value) : bool :=
  match v with VList _ => true | _ => false end.
Definition isinstance_int (v : value) : bool :=
  match v with VInt _ | VBool _ => true | _ => false end.

(** Items of a dict: [key in d] and [d.get(key)]. *)
Fixpoint lookup {A : Type} (key : string) (d : list (string * A)) : option A :=
  match d with
  | [] => None
  | (k, v) :: rest => if k =? key then Some v else lookup key rest
  end.

Definition has_key {A : Type} (key : string) (d : list (string * A)) : bool :=
  match lookup key d with Some _ => true | None => false end.

Definition dict_get (key : string) (d : list (string * value)) : value :=
  match lookup key d with Some v => v | None => VNone end.

(** [str(z)] for an int. *)
Definition str_int (z : Z) : string := NilZero.string_of_int (Z.to_int z).

(** The double quote character, as a string. *)
Definition dquote : string := String (ascii_of_nat 34) EmptyString.

(** ** Substrings *)

(** [sub in s] for two strings. *)
Definition Contains (sub s : string) : Prop :=
  exists pre post, s = pre ++ sub ++ post.

Fixpoint occurs (sub s : string) : bool :=
  prefix sub s ||
  match s with
  | EmptyString => false
  | String _ rest => occurs sub rest
  end.

(** ** Exceptions *)

(** The exception classes the program tells apart.  A class stands for
    itself and its subclasses.  [ConnectionError], [TypeError], [KeyError]
    and [AttributeError] are the builtins; [RequestException] is
    [requests.exceptions.RequestException]; [TelegramError] is
    [telegram.error.TelegramError]; [OtherException] is any other subclass of
    [Exception]; [BaseExceptionOnly] is a [BaseException] that is not an
    [Exception] (KeyboardInterrupt, SystemExit).

    Modelled from the spec: the module [exceptions] of the repository, which
    declares [BotError] and [DateError], is missing; they are taken as two
    distinct direct subclasses of [Exception]. *)
Inductive exn_class : Type :=
| ConnectionError
| TypeError
| KeyError
| AttributeError
| BotError
| DateError
| RequestException
| TelegramError
| OtherException (name : string)
| BaseExceptionOnly (name : string).

(** An exception: its class, its single argument, and [__cause__]
    (set by [raise ... from error]). *)
Inductive exn : Type :=
| Exn (cls : exn_class) (arg : string) (cause : option exn).

Definition exn_cls (e : exn) : exn_class := let (c, _, _) := e in c.
Definition exn_arg (e : exn) : string := let (_, a, _) := e in a.

Definition is_BotError (e : exn) : bool :=
  match exn_cls e with BotError => true | _ => false end.
Definition is_DateError (e : exn) : bool :=
  match exn_cls e with DateError => true | _ => false end.
Definition is_TelegramError (e : exn) : bool :=
  match exn_cls e with TelegramError => true | _ => false end.
Definition is_RequestException (e : exn) : bool :=
  match exn_cls e with RequestException => true | _ => false end.
(** [isinstance(e, Exception)] *)
Definition is_Exception (e : exn) : bool :=
  match exn_cls e with BaseExceptionOnly _ => false | _ => true end.

(** ** Results and effects *)

Inductive result (A : Type) : Type :=
| Ret (a : A)
| Raise (e : exn).
Arguments Ret {A} a.
Arguments Raise {A} e.

Inductive level : Type := INFO | ERROR | CRITICAL.

(** What the program does to the outside, in order. *)
Inductive event : Type :=
| Log (lvl : level) (msg : string)
| HttpGet (url authorization : string) (from_date : value)
| BotSend (chat_id : option string) (text : string)
| Sleep (seconds : Z).

(** A computation: its result and the events it emitted. *)
Definition M (A : Type) : Type := (result A * list event)%type.

Class MBind (F : Type -> Type) : Type :=
  mbind : forall {A B : Type}, F A -> (A -> F B) -> F B.

#[export] Instance result_bind : MBind result :=
  fun A B r k => match r with Ret a => k a | Raise e => Raise e end.

#[export] Instance M_bind : MBind M :=
  fun A B m k =>
    match m with
    | (Ret a, t) => let (r, t') := k a in (r, (t ++ t')%list)
    | (Raise e, t) => (Raise e, t)
    end.

Notation "x <- m ;; k" := (mbind m (fun x => k))
  (at level 61, m at next level, right associativity).
Notation "m ;; k" := (mbind m (fun _ => k))
  (at level 61, right associativity).

Definition ret {A : Type} (a : A) : M A := (Ret a, []).
Definition lift {A : Type} (r : result A) : M A := (r, []).
Definition emit (ev : event) : M unit := (Ret tt, [ev]).

(** [try: m  except <clauses>: ...]: [handler error] is [None] when no
    clause matches [error], which is then raised again. *)
Definition try_except {A : Type} (m : M A) (handler : exn -> option (M A)) : M A :=
  match m with
  | (Ret a, t) => (Ret a, t)
  | (Raise error, t) =>
      match handler error with
      | Some h => let (r, t') := h in (r, (t ++ t')%list)
      | None => (Raise error, t)
      end
  end.

(** [try: m  finally: f], for an [f] that does not raise. *)
Definition try_finally {A : Type} (m : M A) (f : M unit) : M A :=
  let (r, t) := m in (r, (t ++ snd f)%list).

(** ** The outside *)

(** What [requests.get(...)] does: it raises, or it returns a response with
    a status code and a body on which [response.json()] returns a decoded
    document or raises. *)
Inductive get_outcome : Type :=
| GetRaises (error : exn)
| GetResponse (status_code : Z) (json : result value).

(** The outside during one poll cycle: the HTTP API, asked with
    [from_date], and the Telegram client, asked to send a text.  (The two
    texts a cycle may send, a status sentence and a failure message, start
    differently: see [status_text_is_no_failure_message].) *)
Record cycle_io : Type := {
  requests_get : value -> get_outcome;
  bot_send_message : string -> result unit
}.

(** The outside at startup: [time.time()] and what [telegram.Bot(...)] does. *)
Record startup : Type := {
  time_time : Z;
  telegram_Bot : result unit
}.

(** The variables of the loop in [main]. *)
Record state : Type := {
  current_timestamp : value;
  error_cache : string
}.

(** What [main] has come to after the cycles it was given. *)
Inductive main_status : Type :=
| Returned                 (* [main] returned without entering the loop *)
| Looping (s : state).     (* [main] is in its loop, with these variables *)

Definition RETRY_TIME : Z := 600.
Definition ENDPOINT : string :=
  "https://practicum.yandex.ru/api/user_api/homework_statuses/".

Definition HOMEWORK_STATUSES : list (string * string) :=
  [ ("approved", "Работа проверена: ревьюеру всё понравилось. Ура!");
    ("reviewing", "Работа взята на проверку ревьюером.");
    ("rejected", "Работа проверена: у ревьюера есть замечания.") ].

(** What the module finds when it is loaded: the three environment
    variables, read by [os.getenv], and Python's [repr] of a [str] (its
    quotes and escapes depend on Unicode tables, and are taken as given). *)
Record process : Type := {
  repr_str : string -> string;
  PRACTICUM_TOKEN : option string;
  TELEGRAM_TOKEN : option string;
  TELEGRAM_CHAT_ID : option string
}.

Section Program.

Variable py : process.

(** [repr(v)] and [str(v)] *)
Fixpoint py_repr (v : value) : string :=
  match v with
  | VNone => "None"
  | VBool true => "True"
  | VBool false => "False"
  | VInt z => str_int z
  | VFloat t => t
  | VStr s => repr_str py s
  | VList l => "[" ++ String.concat ", " (map py_repr l) ++ "]"
  | VDict d =>
      "{" ++ String.concat ", "
               (map (fun kv => repr_str py (fst kv) ++ ": " ++ py_repr (snd kv)) d)
          ++ "}"
  end.

Definition py_str (v : value) : string :=
  match v with
  | VStr s => s
  | _ => py_repr v
  end.

(** [str(x)] for a value of [os.getenv]. *)
Definition str_env (x : option string) : string :=
  match x with Some s => s | None => "None" end.

Definition truthy_env (x : option string) : bool :=
  match x with Some s => negb (s =? "") | None => false end.

(** [str(error)]: the argument; a [KeyError] prints the [repr] of its
    argument. *)
Definition str_exn (error : exn) : string :=
  match exn_cls error with
  | KeyError => repr_str py (exn_arg error)
  | _ => exn_arg error
  end.

Definition HEADERS : string := "OAuth " ++ str_env (PRACTICUM_TOKEN py).

Definition logger (lvl : level) (msg : string) : M unit := emit (Log lvl msg).

(** [homework.py], lines 42-51. *)
Definition send_message (bot : string -> result unit) (message : string) : M unit :=
  match bot message with
  | Raise error =>
      if is_TelegramError error then
        (Raise (Exn BotError
                    ("Ошибка при отправке сообщения [" ++ message ++ "]")
                    (Some error)),
         [BotSend (TELEGRAM_CHAT_ID py) message])
      else (Raise error, [BotSend (TELEGRAM_CHAT_ID py) message])
  | Ret _ =>
      (Ret tt,
       [BotSend (TELEGRAM_CHAT_ID py) message;
        Log INFO ("Сообщение [" ++ message ++ "] отправлено")])
  end.

(** [homework.py], lines 54-72. *)
Definition get_api_answer (get : value -> get_outcome) (current_timestamp : value)
  : M value :=
  let request := [HttpGet ENDPOINT HEADERS current_timestamp] in
  match get current_timestamp with
  | GetRaises error =>
      if is_RequestException error then
        (Raise (Exn ConnectionError
                    ("Отсутствует доступ к эндпоинту " ++ ENDPOINT ++ " "
                     ++ "Ошибка: " ++ str_exn error)
                    (Some error)),
         request)
      else (Raise error, request)
  | GetResponse status_code json =>
      if negb (status_code =? 200)%Z then
        (Raise (Exn ConnectionError
                    ("Статус эндпоинта " ++ ENDPOINT ++ " отличен от 200"
                     ++ "Статус " ++ str_int status_code)
                    None),
         request)
      else (json, request)
  end.

(** [homework.py], lines 75-100.  On success the result is the list
    behind [homeworks]. *)
Definition check_response (response : value) : result (list value) :=
  match response with
  | VDict d =>
      let homeworks := dict_get "homeworks" d in
      if negb (has_key "current_date" d) then
        Raise (Exn DateError "Ключа current_date нет в полученных данных" None)
      else if negb (has_key "homeworks" d) then
        Raise (Exn KeyError "Ключа homeworks нет в полученных данных" None)
      else
        match homeworks with
        | VList l => Ret l
        | _ =>
            Raise (Exn TypeError
                       ("Ошибка в типе данных домашних заданий "
                        ++ "Тип данных: " ++ str_type homeworks)
                       None)
        end
  | _ =>
      Raise (Exn TypeError
                 ("Ошибка в типе полученных данных "
                  ++ "Тип данных: " ++ str_type response)
                 None)
  end.

(** [v.get(key)]: only a dict has the method. *)
Definition py_get (v : value) (key : string) : result value :=
  match v with
  | VDict d => Ret (dict_get key d)
  | _ =>
      Raise (Exn AttributeError
                 ("'" ++ type_name v ++ "' object has no attribute 'get'")
                 None)
  end.

(** [v in HOMEWORK_STATUSES]: the key is hashed first, and a list or a
    dict is not hashable; a key that is not a [str] equals none of the
    dict's. *)
Definition in_HOMEWORK_STATUSES (v : value) : result bool :=
  match v with
  | VList _ | VDict _ =>
      Raise (Exn TypeError ("unhashable type: '" ++ type_name v ++ "'") None)
  | VStr s => Ret (has_key s HOMEWORK_STATUSES)
  | _ => Ret false
  end.

(** [HOMEWORK_STATUSES.get(v)], printed by an f-string. *)
Definition str_verdict (v : value) : string :=
  match v with
  | VStr s =>
      match lookup s HOMEWORK_STATUSES with
      | Some verdict => verdict
      | None => "None"
      end
  | _ => "None"
  end.

(** [homework.py], lines 103-120. *)
Definition parse_status (homework : value) : result string :=
  homework_name <- py_get homework "homework_name" ;;
  homework_status <- py_get homework "status" ;;
  if negb (truthy homework_name) then
    Raise (Exn KeyError "Отсутствует ключ homework_name" None)
  else
    known <- in_HOMEWORK_STATUSES homework_status ;;
    if negb known then
      Raise (Exn KeyError
                 ("Получен неожиданный статус работы: " ++ py_str homework_status)
                 None)
    else
      Ret ("Изменился статус проверки работы " ++ dquote
           ++ py_str homework_name ++ dquote ++ ". "
           ++ str_verdict homework_status).

(** [homework.py], lines 123-134: the variables are looked at in the
    order of the dict, and the first empty one ends the check. *)
Definition env_vars : list (string * option string) :=
  [ ("PRACTICUM_TOKEN", PRACTICUM_TOKEN py);
    ("TELEGRAM_TOKEN", TELEGRAM_TOKEN py);
    ("TELEGRAM_CHAT_ID", TELEGRAM_CHAT_ID py) ].

Fixpoint check_items (items : list (string * option string)) : M bool :=
  match items with
  | [] => ret true
  | (key, value) :: rest =>
      if negb (truthy_env value) then
        logger CRITICAL ("Отсутствует переменная окружения " ++ key) ;;
        ret false
      else check_items rest
  end.

Definition check_tokens : M bool := check_items env_vars.

(** The [try] block of the loop, lines 148-157; its result is the value
    of [current_timestamp] when the block ends. *)
Definition try_block (io : cycle_io) (current_timestamp : value) : M value :=
  response <- get_api_answer (requests_get io) current_timestamp ;;
  homeworks <- lift (check_response response) ;;
  match homeworks with
  | homework :: _ =>
      text <- lift (parse_status homework) ;;
      send_message (bot_send_message io) text
  | [] => ret tt
  end ;;
  response_date <- lift (py_get response "current_date") ;;
  ret (if isinstance_int response_date then response_date
       else current_timestamp).

(** The message of the [except Exception] clause, line 163. *)
Definition failure_message (error : exn) : string :=
  "Сбой в работе программы: " ++ str_exn error.

(** The two [except] clauses, lines 159-167; the result is the state the
    loop goes on with. *)
Definition except_clauses (io : cycle_io) (s : state) (error : exn)
  : option (M state) :=
  if is_BotError error || is_DateError error then
    Some (logger ERROR (str_exn error) ;; ret s)
  else if is_Exception error then
    Some (let message := failure_message error in
          logger ERROR message ;;
          if negb (error_cache s =? message) then
            send_message (bot_send_message io) message ;;
            ret {| current_timestamp := current_timestamp s;
                   error_cache := message |}
          else ret s)
  else None.

(** One turn of [while True], lines 147-170. *)
Definition cycle (io : cycle_io) (s : state) : M state :=
  try_finally
    (try_except
       (current_timestamp' <- try_block io (current_timestamp s) ;;
        ret {| current_timestamp := current_timestamp';
               error_cache := error_cache s |})
       (except_clauses io s))
    (emit (Sleep RETRY_TIME)).

(** The loop, for as many turns as [ios] tells the outside's part of;
    an exception that leaves a turn leaves the loop. *)
Fixpoint loop (ios : list cycle_io) (s : state) : M state :=
  match ios with
  | [] => ret s
  | io :: rest => s' <- cycle io s ;; loop rest s'
  end.

(** [homework.py], lines 137-173. *)
Definition main (st : startup) (ios : list cycle_io) : M main_status :=
  ok <- check_tokens ;;
  if ok then
    lift (telegram_Bot st) ;;
    s <- loop ios {| current_timestamp := VInt (time_time st);
                     error_cache := "" |} ;;
    ret (Looping s)
  else
    logger CRITICAL "Работа бота была прервана" ;;
    ret Returned.

End Program.

(** ** Notions the properties are stated with *)

(** The errors of the second [except] clause, [except Exception], which
    the first clause has not taken. *)
Definition is_generic (error : exn) : bool :=
  negb (is_BotError error || is_DateError error) && is_Exception error.

(** The texts handed to the Telegram client, in order. *)
Fixpoint sent (t : list event) : list string :=
  match t with
  | [] => []
  | BotSend _ text :: rest => text :: sent rest
  | _ :: rest => sent rest
  end.

(** How many times [text] was handed to the Telegram client. *)
Definition times_sent (text : string) (t : list event) : nat :=
  count_occ string_dec (sent t) text.

(** A poll cycle in which the API answers 200 with the dict [d]. *)
Definition answers (bot : string -> result unit) (d : list (string * value))
  : cycle_io :=
  {| requests_get := fun _ => GetResponse 200 (Ret (VDict d));
     bot_send_message := bot |}.

(** A poll cycle in which the API answers with the status [code]. *)
Definition answers_status (bot : string -> result unit) (code : Z) : cycle_io :=
  {| requests_get := fun _ => GetResponse code (Ret VNone);
     bot_send_message := bot |}.

(** The [from_date] of the requests made, and the lengths of the sleeps
    taken, in order. *)
Fixpoint requests (t : list event) : list value :=
  match t with
  | [] => []
  | HttpGet _ _ from_date :: rest => from_date :: requests rest
  | _ :: rest => requests rest
  end.

Fixpoint sleeps (t : list event) : list Z :=
  match t with
  | [] => []
  | Sleep seconds :: rest => seconds :: sleeps rest
  | _ :: rest => sleeps rest
  end.

(** The [try] block of a cycle raises an error of the second [except]
    clause, of which the failure message is [message]. *)
Definition fails_with (py : process) (io : cycle_io) (timestamp : value)
  (message : string) : Prop :=
  exists error t,
    try_block py io timestamp = (Raise error, t)
    /\ is_generic error = true
    /\ failure_message py error = message.

(** ** Example inputs *)

(** [repr] of a text without quotes, backslashes or unprintable
    characters. *)
Definition repr_plain (s : string) : string := "'" ++ s ++ "'".

Definition example_process : process :=
  {| repr_str := repr_plain;
     PRACTICUM_TOKEN := Some "practicum";
     TELEGRAM_TOKEN := Some "telegram";
     TELEGRAM_CHAT_ID := Some "42" |}.

Definition delivers : string -> result unit := fun _ => Ret tt.

Definition example_homework : list (string * value) :=
  [ ("homework_name", VStr "hw1"); ("status", VStr "reviewing") ].

Definition example_state : state :=
  {| current_timestamp := VInt 1000; error_cache := "" |}.

(** A client that Telegram refuses, and one that breaks outside
    [telegram.error]. *)
Definition refused : string -> result unit :=
  fun _ => Raise (Exn TelegramError "Forbidden: bot was blocked by the user" None).

Definition broken : string -> result unit :=
  fun _ => Raise (Exn (OtherException "RuntimeError")
                      "cannot schedule new futures after shutdown" None).

(** Answers of the API: one homework under review, and no homework. *)
Definition example_answer : list (string * value) :=
  [ ("homeworks", VList [VDict example_homework]);
    ("current_date", VInt 2000) ].

Definition empty_answer : list (string * value) :=
  [ ("homeworks", VList []); ("current_date", VInt 2000) ].

(** The failure message of a 503 answer. *)
Definition example_failure : string :=
  failure_message example_process
    (Exn ConnectionError
         ("Статус эндпоинта " ++ ENDPOINT ++ " отличен от 200"
          ++ "Статус " ++ str_int 503)
         None).

(** A startup that goes well, and requests that cannot connect. *)
Definition example_startup : startup :=
  {| time_time := 1000; telegram_Bot := Ret tt |}.

Definition connection_refused : exn :=
  Exn RequestException "Connection refused" None.

(** Records that [parse_status] refuses. *)
Definition nameless_homework : list (string * value) :=
  [ ("homework_name", VStr ""); ("status", VStr "unknown") ].

Definition unhashable_homework : list (string * value) :=
  [ ("homework_name", VStr "hw1"); ("status", VList []) ].

Definition unknown_homework : list (string * value) :=
  [ ("homework_name", VStr "hw1"); ("status", VStr "unknown") ].

(** * Properties *)

(** ** Strings *)

Lemma append_assoc (a b c : string) : (a ++ b) ++ c = a ++ (b ++ c).
Proof.
  induction a as [|x a IH]; simpl.
  - reflexivity.
  - now rewrite IH.
Qed.

Lemma append_nil_r (a : string) : a ++ "" = a.
Proof.
  induction a as [|x a IH]; simpl; [reflexivity | now rewrite IH].
Qed.

Lemma Contains_here (sub post : string) : Contains sub (sub ++ post).
Proof. now exists "", post. Qed.

Lemma Contains_end (pre sub : string) : Contains sub (pre ++ sub).
Proof. exists pre, "". now rewrite append_nil_r. Qed.

Lemma Contains_app_l (sub a b : string) : Contains sub a -> Contains sub (a ++ b).
Proof.
  intros (pre & post & ->). exists pre, (post ++ b).
  now rewrite !append_assoc.
Qed.

Lemma Contains_app_r (sub a b : string) : Contains sub b -> Contains sub (a ++ b).
Proof.
  intros (pre & post & ->). exists (a ++ pre), post.
  now rewrite !append_assoc.
Qed.

Create HintDb contains.
#[local] Hint Resolve Contains_here Contains_end Contains_app_l Contains_app_r
  : contains.

Lemma prefix_app (sub post : string) : prefix sub (sub ++ post) = true.
Proof.
  induction sub as [|x sub IH]; simpl.
  - now destruct post.
  - destruct (ascii_dec x x) as [_|ne]; [exact IH | now destruct ne].
Qed.

(** [occurs] decides [Contains]; only this direction is used, to show that
    a text does not occur. *)
Lemma Contains_occurs (sub s : string) : Contains sub s -> occurs sub s = true.
Proof.
  intros (pre & post & ->).
  induction pre as [|x pre IH].
  - change ("" ++ sub ++ post) with (sub ++ post).
    assert (P := prefix_app sub post).
    destruct (sub ++ post); unfold occurs; fold occurs; now rewrite P.
  - change ((String x pre) ++ sub ++ post) with (String x (pre ++ sub ++ post)).
    simpl occurs. rewrite IH. apply orb_true_r.
Qed.

Section Properties.

Variable py : process.

(** ** The fetcher *)

(** C5: when the HTTP status is not 200, [get_api_answer] raises a
    [ConnectionError] whose message holds the endpoint and the status code
    as printed; when it is 200, [get_api_answer] gives what
    [response.json()] gives, the decoded body. *)
Theorem get_api_answer_status_code
  (get : value -> get_outcome) (timestamp : value)
  (status_code : Z) (json : result value) :
  get timestamp = GetResponse status_code json ->
  (status_code <> 200%Z ->
   exists msg,
     get_api_answer py get timestamp
     = (Raise (Exn ConnectionError msg None),
        [HttpGet ENDPOINT (HEADERS py) timestamp])
     /\ Contains ENDPOINT msg
     /\ Contains (str_int status_code) msg)
  /\ (status_code = 200%Z ->
      get_api_answer py get timestamp
      = (json, [HttpGet ENDPOINT (HEADERS py) timestamp])).
Proof.
  intros Hget. unfold get_api_answer. rewrite Hget. split.
  - intros Hne. apply Z.eqb_neq in Hne. rewrite Hne. cbn [negb].
    eexists. split; [reflexivity|]. split.
    + apply Contains_app_r, Contains_here.
    + apply Contains_app_r, Contains_app_r, Contains_app_r, Contains_end.
  - intros ->. reflexivity.
Qed.

(** ** The validator *)

Lemma has_key_lookup {A : Type} (key : string) (d : list (string * A)) (v : A) :
  lookup key d = Some v -> has_key key d = true.
Proof. unfold has_key. now intros ->. Qed.

Lemma dict_get_lookup (key : string) (d : list (string * value)) (v : value) :
  lookup key d = Some v -> dict_get key d = v.
Proof. unfold dict_get. now intros ->. Qed.

(** C6: for a dict that has both [current_date] and [homeworks],
    [check_response] raises a [TypeError] when the value of [homeworks] is
    not a list, and returns that list as it is (empty or not) when it is
    one. *)
Theorem check_response_homeworks
  (d : list (string * value)) (date homeworks : value) :
  lookup "current_date" d = Some date ->
  lookup "homeworks" d = Some homeworks ->
  (isinstance_list homeworks = false ->
   exists msg, check_response (VDict d) = Raise (Exn TypeError msg None))
  /\ (forall l, homeworks = VList l -> check_response (VDict d) = Ret l).
Proof.
  intros Hd Hh. unfold check_response.
  rewrite (has_key_lookup _ _ _ Hd), (has_key_lookup _ _ _ Hh),
    (dict_get_lookup _ _ _ Hh).
  cbn [negb]. split.
  - intros Hl. destruct homeworks; try discriminate; eexists; reflexivity.
  - now intros l ->.
Qed.

Lemma check_response_no_date (d : list (string * value)) :
  has_key "current_date" d = false ->
  check_response (VDict d)
  = Raise (Exn DateError "Ключа current_date нет в полученных данных" None).
Proof. intros H. unfold check_response. now rewrite H. Qed.

(** ** The notifier *)

(** C7, as the code has it: when the client's send raises a
    [TelegramError], [send_message] raises a [BotError] whose message holds
    the text and whose cause is that error; when it raises an exception of
    another class, [send_message] raises that same exception, unchanged.
    In both cases the one call of the client is the only thing done. *)
Theorem send_message_wraps_TelegramError
  (bot : string -> result unit) (message : string) (error : exn) :
  bot message = Raise error ->
  (is_TelegramError error = true ->
   exists msg,
     send_message py bot message
     = (Raise (Exn BotError msg (Some error)),
        [BotSend (TELEGRAM_CHAT_ID py) message])
     /\ Contains message msg)
  /\ (is_TelegramError error = false ->
      send_message py bot message
      = (Raise error, [BotSend (TELEGRAM_CHAT_ID py) message])).
Proof.
  intros Hb. unfold send_message. rewrite Hb. split; intros Ht; rewrite Ht.
  - eexists. split; [reflexivity|].
    apply Contains_app_r, Contains_here.
  - reflexivity.
Qed.

(** ** The formatter *)

Lemma parse_status_dict (d : list (string * value)) :
  parse_status py (VDict d)
  = if negb (truthy (dict_get "homework_name" d)) then
      Raise (Exn KeyError "Отсутствует ключ homework_name" None)
    else
      known <- in_HOMEWORK_STATUSES (dict_get "status" d) ;;
      if negb known then
        Raise (Exn KeyError
                   ("Получен неожиданный статус работы: "
                    ++ py_str py (dict_get "status" d))
                   None)
      else
        Ret ("Изменился статус проверки работы " ++ dquote
             ++ py_str py (dict_get "homework_name" d) ++ dquote ++ ". "
             ++ str_verdict (dict_get "status" d)).
Proof. reflexivity. Qed.

(** C4, as the code has it: [parse_status] raises a [KeyError] for every
    record whose name is absent or empty; for a record with a name, it
    raises a [KeyError] whose message holds the status as printed when the
    status is absent or is a null, a boolean, a number or a string outside
    the catalog. *)
Theorem parse_status_KeyError (d : list (string * value)) :
  (truthy (dict_get "homework_name" d) = false ->
   parse_status py (VDict d)
   = Raise (Exn KeyError "Отсутствует ключ homework_name" None))
  /\ (truthy (dict_get "homework_name" d) = true ->
      in_HOMEWORK_STATUSES (dict_get "status" d) = Ret false ->
      exists msg,
        parse_status py (VDict d) = Raise (Exn KeyError msg None)
        /\ Contains (py_str py (dict_get "status" d)) msg).
Proof.
  rewrite parse_status_dict. split.
  - now intros ->.
  - intros -> ->. cbn [negb mbind result_bind].
    eexists. split; [reflexivity | apply Contains_end].
Qed.

(** ** One poll cycle *)

(** A cycle, by what its [try] block does. *)
Lemma cycle_cases (io : cycle_io) (s : state) :
  cycle py io s
  = match try_block py io (current_timestamp s) with
    | (Ret v, t) =>
        (Ret {| current_timestamp := v; error_cache := error_cache s |},
         (t ++ [Sleep RETRY_TIME])%list)
    | (Raise error, t) =>
        match except_clauses py io s error with
        | Some (r, t') => (r, (t ++ t' ++ [Sleep RETRY_TIME])%list)
        | None => (Raise error, (t ++ [Sleep RETRY_TIME])%list)
        end
    end.
Proof.
  unfold cycle, try_finally, try_except, mbind, M_bind, ret, emit.
  destruct (try_block py io (current_timestamp s)) as [[v|error] t]; cbn [snd].
  - now rewrite app_nil_r.
  - destruct (except_clauses py io s error) as [[r t']|]; cbn [snd].
    + now rewrite app_assoc.
    + reflexivity.
Qed.

Lemma except_clauses_own (io : cycle_io) (s : state) (error : exn) :
  is_BotError error || is_DateError error = true ->
  except_clauses py io s error = Some (Ret s, [Log ERROR (str_exn py error)]).
Proof. intros H. unfold except_clauses. now rewrite H. Qed.

Lemma except_clauses_known (io : cycle_io) (s : state) (error : exn) :
  is_generic error = true ->
  error_cache s = failure_message py error ->
  except_clauses py io s error
  = Some (Ret s, [Log ERROR (failure_message py error)]).
Proof.
  unfold is_generic. intros H E.
  apply andb_true_iff in H as [H1 H2]. apply negb_true_iff in H1.
  unfold except_clauses. rewrite H1, H2, E, String.eqb_refl. reflexivity.
Qed.

Lemma except_clauses_new (io : cycle_io) (s : state) (error : exn) :
  is_generic error = true ->
  error_cache s <> failure_message py error ->
  except_clauses py io s error
  = Some (let (r, t) := send_message py (bot_send_message io)
                          (failure_message py error) in
          (match r with
           | Ret _ => Ret {| current_timestamp := current_timestamp s;
                             error_cache := failure_message py error |}
           | Raise e => Raise e
           end,
           Log ERROR (failure_message py error) :: t)).
Proof.
  unfold is_generic. intros H E.
  apply andb_true_iff in H as [H1 H2]. apply negb_true_iff in H1.
  apply String.eqb_neq in E.
  unfold except_clauses. rewrite H1, H2, E.
  cbn [negb mbind M_bind logger emit ret].
  destruct (send_message py (bot_send_message io) (failure_message py error))
    as [[[]|e] t]; cbn; now rewrite ?app_nil_r.
Qed.

(** C8: when the [try] block raises a [BotError] or a [DateError], the
    cycle logs it at error level, sleeps, and goes on with the same
    variables: [error_cache] is not touched and nothing is handed to the
    Telegram client. *)
Theorem cycle_BotError_DateError
  (io : cycle_io) (s : state) (error : exn) (t : list event) :
  try_block py io (current_timestamp s) = (Raise error, t) ->
  is_BotError error || is_DateError error = true ->
  cycle py io s
  = (Ret s, (t ++ [Log ERROR (str_exn py error); Sleep RETRY_TIME])%list).
Proof.
  intros Ht He. rewrite cycle_cases, Ht, (except_clauses_own _ _ _ He).
  reflexivity.
Qed.

(** C2: a dict without [current_date] makes [check_response] raise a
    [DateError], and the cycle that got such an answer goes on with the
    same [current_timestamp] (and the same [error_cache]), having logged
    the error. *)
Theorem missing_current_date (d : list (string * value)) :
  has_key "current_date" d = false ->
  (exists msg, check_response (VDict d) = Raise (Exn DateError msg None))
  /\ forall (io : cycle_io) (s : state),
       requests_get io (current_timestamp s) = GetResponse 200 (Ret (VDict d)) ->
       cycle py io s
       = (Ret s,
          [HttpGet ENDPOINT (HEADERS py) (current_timestamp s);
           Log ERROR "Ключа current_date нет в полученных данных";
           Sleep RETRY_TIME]).
Proof.
  intros H. split.
  - eexists. now apply check_response_no_date.
  - intros io s Hget.
    assert (T : try_block py io (current_timestamp s)
                = (Raise (Exn DateError
                              "Ключа current_date нет в полученных данных" None),
                   [HttpGet ENDPOINT (HEADERS py) (current_timestamp s)])).
    { unfold try_block, get_api_answer. rewrite Hget.
      cbn [Z.eqb Pos.eqb negb mbind M_bind lift].
      now rewrite (check_response_no_date _ H). }
    rewrite cycle_cases, T, except_clauses_own; reflexivity.
Qed.

(** A poll cycle whose answer lists several homeworks does what it does
    when the answer lists the first of them alone. *)
Lemma cycle_first_homework_only
  (bot : string -> result unit) (s : state)
  (pre post : list (string * value)) (first : value) (rest : list value) :
  has_key "homeworks" pre = false ->
  cycle py (answers bot (pre ++ ("homeworks", VList (first :: rest)) :: post)%list) s
  = cycle py (answers bot (pre ++ ("homeworks", VList [first]) :: post)%list) s.
Proof.
  intros Hpre.
  assert (L : forall l, lookup "homeworks" (pre ++ ("homeworks", VList l) :: post)%list
                        = Some (VList l)).
  { intros l. clear - Hpre. unfold has_key in Hpre.
    induction pre as [|[k v] pre IH]; cbn in *.
    - reflexivity.
    - destruct (k =? "homeworks"); [discriminate | now apply IH]. }
  assert (E : forall l l', lookup "current_date" (pre ++ ("homeworks", VList l) :: post)%list
                = lookup "current_date" (pre ++ ("homeworks", VList l') :: post)%list).
  { intros l l'. clear. induction pre as [|[k v] pre IH]; cbn.
    - reflexivity.
    - destruct (k =? "current_date"); [reflexivity | apply IH]. }
  unfold cycle, try_block, get_api_answer, answers, check_response.
  cbn [requests_get bot_send_message Z.eqb Pos.eqb negb].
  cbn [mbind M_bind lift].
  rewrite !(has_key_lookup _ _ _ (L _)), !(dict_get_lookup _ _ _ (L _)).
  cbn [py_get]. unfold has_key, dict_get. rewrite (E (first :: rest) [first]).
  destruct (lookup "current_date" _); reflexivity.
Qed.

(** C3: for a record with a non-empty name and a status of the catalog,
    [parse_status] returns the sentence made of the name and of the
    catalog's verdict, which therefore holds both; a poll cycle whose
    answer lists that record first hands this sentence to the Telegram
    client; and a poll cycle whose answer lists several homeworks does what
    it does when the answer lists the first of them alone. *)
Theorem parse_status_known
  (d : list (string * value)) (name status verdict : string) :
  lookup "homework_name" d = Some (VStr name) ->
  name <> "" ->
  lookup "status" d = Some (VStr status) ->
  lookup status HOMEWORK_STATUSES = Some verdict ->
  let text :=
    "Изменился статус проверки работы " ++ dquote ++ name ++ dquote
    ++ ". " ++ verdict in
  parse_status py (VDict d) = Ret text
  /\ Contains name text
  /\ Contains verdict text
  /\ (forall (bot : string -> result unit) (s : state)
        (response : list (string * value)) (rest : list value),
        check_response (VDict response) = Ret (VDict d :: rest) ->
        exists r t,
          cycle py (answers bot response) s
          = (r, HttpGet ENDPOINT (HEADERS py) (current_timestamp s)
                :: BotSend (TELEGRAM_CHAT_ID py) text :: t))
  /\ forall (bot : string -> result unit) (s : state)
       (pre post : list (string * value)) (first : value) (rest : list value),
       has_key "homeworks" pre = false ->
       cycle py (answers bot (pre ++ ("homeworks", VList (first :: rest)) :: post)%list) s
       = cycle py (answers bot (pre ++ ("homeworks", VList [first]) :: post)%list) s.
Proof.
  intros Hn Hne Hs Hv text.
  assert (P : parse_status py (VDict d) = Ret text).
  { rewrite parse_status_dict.
    rewrite (dict_get_lookup _ _ _ Hn), (dict_get_lookup _ _ _ Hs).
    cbn [truthy]. apply String.eqb_neq in Hne. rewrite Hne. cbn [negb].
    cbn [in_HOMEWORK_STATUSES mbind result_bind].
    rewrite (has_key_lookup _ _ _ Hv). cbn [negb str_verdict py_str].
    now rewrite Hv. }
  split; [exact P|]. split; [|split; [|split]].
  - apply Contains_app_r, Contains_app_r, Contains_here.
  - apply Contains_app_r, Contains_app_r, Contains_app_r, Contains_app_r,
      Contains_end.
  - intros bot s response rest Hr.
    assert (T : exists r0 t0,
               try_block py (answers bot response) (current_timestamp s)
               = (r0, HttpGet ENDPOINT (HEADERS py) (current_timestamp s)
                      :: BotSend (TELEGRAM_CHAT_ID py) text :: t0)).
    { unfold try_block, get_api_answer, answers.
      cbn [requests_get bot_send_message Z.eqb Pos.eqb negb].
      cbn [mbind M_bind lift]. rewrite Hr, P.
      unfold send_message.
      destruct (bot text) as [[]|error].
      - destruct response; cbn; eauto.
      - destruct (is_TelegramError error); cbn; eauto. }
    destruct T as (r0 & t0 & T). rewrite cycle_cases, T.
    destruct r0 as [v|error].
    + cbn [app]. eauto.
    + destruct (except_clauses py (answers bot response) s error) as [[r' t']|];
        cbn [app]; eauto.
  - apply cycle_first_homework_only.
Qed.

(** The [try] block starts with the request, which carries
    [current_timestamp] as [from_date]. *)
Lemma try_block_request (io : cycle_io) (timestamp : value) :
  exists r t,
    try_block py io timestamp
    = (r, HttpGet ENDPOINT (HEADERS py) timestamp :: t).
Proof.
  unfold try_block, get_api_answer.
  destruct (requests_get io timestamp) as [error|code json].
  - destruct (is_RequestException error); cbn; eauto.
  - destruct (negb (code =? 200)%Z); cbn; [eauto|].
    destruct json as [response|e]; cbn; [|eauto].
    match goal with
    | |- context [let (r, t') := ?m in _] => destruct m as [r' t']
    end.
    cbn. eauto.
Qed.

Lemma cycle_request (io : cycle_io) (s : state) :
  exists r t,
    cycle py io s
    = (r, HttpGet ENDPOINT (HEADERS py) (current_timestamp s) :: t).
Proof.
  rewrite cycle_cases.
  destruct (try_block_request io (current_timestamp s)) as (r & t & ->).
  destruct r as [v|error].
  - cbn. eauto.
  - destruct (except_clauses py io s error) as [[r' t']|]; cbn; eauto.
Qed.

(** What it takes for the [try] block to end without an exception. *)
Lemma try_block_Ret (io : cycle_io) (timestamp v : value) (t : list event) :
  try_block py io timestamp = (Ret v, t) ->
  exists response homeworks,
    requests_get io timestamp = GetResponse 200 (Ret response)
    /\ check_response response = Ret homeworks
    /\ (forall homework rest,
          homeworks = homework :: rest ->
          exists text,
            parse_status py homework = Ret text
            /\ bot_send_message io text = Ret tt).
Proof.
  unfold try_block, get_api_answer.
  destruct (requests_get io timestamp) as [error|code json].
  - destruct (is_RequestException error); cbn; discriminate.
  - destruct (code =? 200)%Z eqn:Hc; cbn [negb]; [|cbn; discriminate].
    apply Z.eqb_eq in Hc. subst code.
    destruct json as [response|e]; [|cbn; discriminate].
    cbn [mbind M_bind lift].
    destruct (check_response response) as [homeworks|e] eqn:Hr;
      [|cbn; discriminate].
    intros H. exists response, homeworks. split; [reflexivity|].
    split; [exact Hr|].
    intros homework rest ->.
    destruct (parse_status py homework) as [text|e]; [|cbn in H; discriminate].
    exists text. split; [reflexivity|].
    unfold send_message in H.
    destruct (bot_send_message io text) as [[]|e]; [reflexivity|].
    destruct (is_TelegramError e); cbn in H; discriminate.
Qed.

(** The [except] clauses leave [current_timestamp] as it is. *)
Lemma except_clauses_timestamp
  (io : cycle_io) (s s' : state) (error : exn) (t : list event) :
  except_clauses py io s error = Some (Ret s', t) ->
  current_timestamp s' = current_timestamp s.
Proof.
  unfold except_clauses.
  destruct (is_BotError error || is_DateError error).
  - cbn. intros [= <- _]. reflexivity.
  - destruct (is_Exception error); [|discriminate].
    destruct (negb (error_cache s =? failure_message py error)).
    + cbn [mbind M_bind logger emit ret].
      destruct (send_message py (bot_send_message io) (failure_message py error))
        as [[[]|e] t']; cbn; intros [= <- _]; reflexivity.
    + cbn. intros [= <- _]. reflexivity.
Qed.

(** C10: take a cycle after which the loop goes on.  If its [try] block
    raised any exception, [current_timestamp] is what it was, and the next
    cycle asks for the same [from_date]; and if [current_timestamp] has
    changed, then the request was answered 200 with a body that
    [check_response] accepted and, when the body lists a homework, its
    status was formatted and delivered. *)
Theorem cursor_moves_only_after_success
  (io : cycle_io) (s s' : state) (t : list event) :
  cycle py io s = (Ret s', t) ->
  (forall error t0,
     try_block py io (current_timestamp s) = (Raise error, t0) ->
     current_timestamp s' = current_timestamp s
     /\ forall io', exists r t1,
          cycle py io' s'
          = (r, HttpGet ENDPOINT (HEADERS py) (current_timestamp s) :: t1))
  /\ (current_timestamp s' <> current_timestamp s ->
      exists response homeworks,
        requests_get io (current_timestamp s) = GetResponse 200 (Ret response)
        /\ check_response response = Ret homeworks
        /\ (forall homework rest,
              homeworks = homework :: rest ->
              exists text,
                parse_status py homework = Ret text
                /\ bot_send_message io text = Ret tt)).
Proof.
  intros Hc. rewrite cycle_cases in Hc.
  destruct (try_block py io (current_timestamp s)) as [[v|error] t0] eqn:Ht.
  - split; [discriminate|].
    intros _. exact (try_block_Ret _ _ _ _ Ht).
  - assert (E : current_timestamp s' = current_timestamp s).
    { destruct (except_clauses py io s error) as [[r t']|] eqn:He;
        [|discriminate].
      injection Hc as -> _.
      exact (except_clauses_timestamp _ _ _ _ _ He). }
    split.
    + intros _ _ _. split; [exact E|].
      intros io'. rewrite <- E. apply cycle_request.
    + intros Hne. now destruct Hne.
Qed.

(** ** Startup *)

Lemma check_tokens_cases :
  check_tokens py
  = if negb (truthy_env (PRACTICUM_TOKEN py)) then
      (Ret false,
       [Log CRITICAL "Отсутствует переменная окружения PRACTICUM_TOKEN"])
    else if negb (truthy_env (TELEGRAM_TOKEN py)) then
      (Ret false,
       [Log CRITICAL "Отсутствует переменная окружения TELEGRAM_TOKEN"])
    else if negb (truthy_env (TELEGRAM_CHAT_ID py)) then
      (Ret false,
       [Log CRITICAL "Отсутствует переменная окружения TELEGRAM_CHAT_ID"])
    else (Ret true, []).
Proof.
  unfold check_tokens, env_vars, check_items.
  destruct (truthy_env (PRACTICUM_TOKEN py)),
    (truthy_env (TELEGRAM_TOKEN py)),
    (truthy_env (TELEGRAM_CHAT_ID py)); reflexivity.
Qed.

(** C9: when one of the three values is missing (unset or empty), [main]
    logs at critical level only (the variable's name, then the abort
    message) and returns, whatever the outside would have answered: no
    request, no message, no sleep.  When the three are present, [main]
    builds the client and runs the loop. *)
Theorem main_needs_the_three_values (st : startup) (ios : list cycle_io) :
  (truthy_env (PRACTICUM_TOKEN py) = false
   \/ truthy_env (TELEGRAM_TOKEN py) = false
   \/ truthy_env (TELEGRAM_CHAT_ID py) = false ->
   exists key,
     In key ["PRACTICUM_TOKEN"; "TELEGRAM_TOKEN"; "TELEGRAM_CHAT_ID"]
     /\ main py st ios
        = (Ret Returned,
           [Log CRITICAL ("Отсутствует переменная окружения " ++ key);
            Log CRITICAL "Работа бота была прервана"]))
  /\ (truthy_env (PRACTICUM_TOKEN py) = true ->
      truthy_env (TELEGRAM_TOKEN py) = true ->
      truthy_env (TELEGRAM_CHAT_ID py) = true ->
      main py st ios
      = (lift (telegram_Bot st) ;;
         s <- loop py ios {| current_timestamp := VInt (time_time st);
                             error_cache := "" |} ;;
         ret (Looping s))).
Proof.
  unfold main. rewrite check_tokens_cases. split.
  - intros H.
    destruct (truthy_env (PRACTICUM_TOKEN py)).
    + destruct (truthy_env (TELEGRAM_TOKEN py)).
      * destruct (truthy_env (TELEGRAM_CHAT_ID py)).
        -- destruct H as [H|[H|H]]; discriminate.
        -- exists "TELEGRAM_CHAT_ID". cbn. auto.
      * exists "TELEGRAM_TOKEN". cbn. auto.
    + exists "PRACTICUM_TOKEN". cbn. auto.
  - intros -> -> ->. cbn [negb mbind M_bind].
    destruct (lift (telegram_Bot st) ;; _) as [r t]. reflexivity.
Qed.

(** ** Failure messages *)

Lemma sent_app (t1 t2 : list event) : sent (t1 ++ t2) = (sent t1 ++ sent t2)%list.
Proof.
  induction t1 as [|ev t1 IH]; [reflexivity|].
  destruct ev; cbn; now rewrite IH.
Qed.

Lemma times_sent_app (text : string) (t1 t2 : list event) :
  times_sent text (t1 ++ t2) = times_sent text t1 + times_sent text t2.
Proof. unfold times_sent. now rewrite sent_app, count_occ_app. Qed.

Lemma send_message_sent (bot : string -> result unit) (message : string) :
  sent (snd (send_message py bot message)) = [message].
Proof.
  unfold send_message. destruct (bot message) as [[]|error].
  - reflexivity.
  - destruct (is_TelegramError error); reflexivity.
Qed.

Lemma parse_status_text (homework : value) (text : string) :
  parse_status py homework = Ret text ->
  exists rest, text = "Изменился статус проверки работы " ++ rest.
Proof.
  destruct homework as [| | | | |l|d]; try discriminate.
  rewrite parse_status_dict.
  destruct (truthy (dict_get "homework_name" d)); [|discriminate].
  destruct (in_HOMEWORK_STATUSES (dict_get "status" d)) as [[|]|e];
    try discriminate.
  cbn. intros [= <-]. eexists. reflexivity.
Qed.

(** A status sentence is never a failure message: the two texts a cycle
    may hand to the Telegram client differ. *)
Lemma status_text_is_no_failure_message (rest : string) (error : exn) :
  "Изменился статус проверки работы " ++ rest <> failure_message py error.
Proof. unfold failure_message. cbn. discriminate. Qed.

(** The [try] block hands to the Telegram client nothing but a status
    sentence. *)
Lemma try_block_sent (io : cycle_io) (timestamp : value)
  (r : result value) (t : list event) (text : string) :
  try_block py io timestamp = (r, t) ->
  In text (sent t) ->
  exists homework, parse_status py homework = Ret text.
Proof.
  unfold try_block, get_api_answer.
  destruct (requests_get io timestamp) as [error|code json].
  - destruct (is_RequestException error); cbn; intros [= <- <-] [].
  - destruct (negb (code =? 200)%Z); [cbn; intros [= <- <-] []|].
    destruct json as [response|e]; [|cbn; intros [= <- <-] []].
    cbn [mbind M_bind lift].
    destruct (check_response response) as [[|homework rest]|e];
      [| |cbn; intros [= <- <-] []].
    + destruct (py_get response "current_date"); cbn; intros [= <- <-] [].
    + destruct (parse_status py homework) as [text'|e] eqn:Hp;
        [|cbn; intros [= <- <-] []].
      assert (S := send_message_sent (bot_send_message io) text').
      destruct (send_message py (bot_send_message io) text') as [[[]|e] t'];
        cbn [snd] in S.
      * destruct (py_get response "current_date"); cbn [ret app];
          intros [= <- <-]; cbn [sent]; rewrite ?sent_app, S; cbn;
          intros [<-|[]]; eauto.
      * cbn [app]. intros [= <- <-]. cbn [sent]. rewrite S.
        intros [<-|[]]. eauto.
Qed.

Lemma try_block_failure_message_unsent (io : cycle_io) (timestamp : value)
  (r : result value) (t : list event) (error : exn) :
  try_block py io timestamp = (r, t) ->
  times_sent (failure_message py error) t = 0.
Proof.
  intros Ht. unfold times_sent. apply count_occ_not_In. intros Hin.
  destruct (try_block_sent _ _ _ _ _ Ht Hin) as (homework & Hp).
  destruct (parse_status_text _ _ Hp) as (rest & E).
  symmetry in E. exact (status_text_is_no_failure_message _ _ E).
Qed.

Lemma times_sent_one (text : string) : count_occ string_dec [text] text = 1.
Proof. cbn. destruct (string_dec text text); congruence. Qed.

(** A failure whose message is the one in [error_cache] is logged, not
    sent. *)
Lemma cycle_known_failure (io : cycle_io) (s : state) (message : string) :
  fails_with py io (current_timestamp s) message ->
  error_cache s = message ->
  exists t, cycle py io s = (Ret s, t) /\ times_sent message t = 0.
Proof.
  intros (error & t & Ht & Hg & Hm) Hc. subst message.
  rewrite cycle_cases, Ht, (except_clauses_known _ _ _ Hg Hc).
  eexists. split; [reflexivity|].
  rewrite times_sent_app, (try_block_failure_message_unsent _ _ _ _ _ Ht).
  reflexivity.
Qed.

(** A failure whose message is not the one in [error_cache] is sent, once;
    when the client delivers it, the message becomes [error_cache]. *)
Lemma cycle_new_failure (io : cycle_io) (s : state) (message : string) :
  fails_with py io (current_timestamp s) message ->
  error_cache s <> message ->
  exists r t,
    cycle py io s = (r, t)
    /\ times_sent message t = 1
    /\ (bot_send_message io message = Ret tt ->
        r = Ret {| current_timestamp := current_timestamp s;
                   error_cache := message |}).
Proof.
  intros (error & t & Ht & Hg & Hm) Hc. subst message.
  rewrite cycle_cases, Ht, (except_clauses_new _ _ _ Hg Hc).
  assert (S := send_message_sent (bot_send_message io) (failure_message py error)).
  destruct (send_message py (bot_send_message io) (failure_message py error))
    as [r' t'] eqn:Hs.
  cbn [snd] in S.
  eexists. eexists. split; [reflexivity|]. split.
  - rewrite times_sent_app, (try_block_failure_message_unsent _ _ _ _ _ Ht).
    unfold times_sent. cbn [app sent]. rewrite sent_app, S. cbn [sent app].
    apply times_sent_one.
  - intros Hb. unfold send_message in Hs. rewrite Hb in Hs.
    injection Hs as <- _. reflexivity.
Qed.

Lemma loop_known_failure (ios : list cycle_io) (s : state) (message : string) :
  Forall (fun io => fails_with py io (current_timestamp s) message) ios ->
  error_cache s = message ->
  exists t, loop py ios s = (Ret s, t) /\ times_sent message t = 0.
Proof.
  intros Hall Hc. induction Hall as [|io ios Hio _ IH].
  - exists []. split; reflexivity.
  - destruct (cycle_known_failure io s message Hio Hc) as (t1 & E1 & N1).
    destruct IH as (t2 & E2 & N2).
    exists (t1 ++ t2)%list. split.
    + cbn [loop]. unfold mbind, M_bind. now rewrite E1, E2.
    + now rewrite times_sent_app, N1, N2.
Qed.

(** C1, as the code has it.  Take a cycle whose [try] block raises an
    error of the [except Exception] clause, with failure message
    [message], followed by cycles that fail with the same message.
    - If [message] is what [error_cache] holds, nothing is sent, in this
      cycle and in the following ones, and the variables stay as they are.
    - If it is not, the cycle hands [message] to the Telegram client once;
      when the client delivers it, [error_cache] becomes [message], the whole
      run of cycles has sent [message] exactly once, and a cycle that then
      fails with another message sends that one, once. *)
Theorem generic_failure_sent_once
  (io : cycle_io) (ios : list cycle_io) (s : state) (message : string) :
  fails_with py io (current_timestamp s) message ->
  Forall (fun io' => fails_with py io' (current_timestamp s) message) ios ->
  (error_cache s = message ->
   exists t,
     loop py (io :: ios) s = (Ret s, t) /\ times_sent message t = 0)
  /\ (error_cache s <> message ->
      (exists r t, cycle py io s = (r, t) /\ times_sent message t = 1)
      /\ (bot_send_message io message = Ret tt ->
          let s' := {| current_timestamp := current_timestamp s;
                       error_cache := message |} in
          (exists t, cycle py io s = (Ret s', t) /\ times_sent message t = 1)
          /\ (exists t,
                loop py (io :: ios) s = (Ret s', t)
                /\ times_sent message t = 1)
          /\ forall io' message',
               message' <> message ->
               fails_with py io' (current_timestamp s) message' ->
               exists r t,
                 cycle py io' s' = (r, t) /\ times_sent message' t = 1)).
Proof.
  intros Hio Hall. split.
  - intros Hc. apply loop_known_failure; [now constructor | exact Hc].
  - intros Hc.
    destruct (cycle_new_failure io s message Hio Hc) as (r & t & E & N & Hr).
    split; [now exists r, t|].
    intros Hb s'. specialize (Hr Hb). subst r.
    split; [now exists t|]. split.
    + destruct (loop_known_failure ios s' message Hall eq_refl)
        as (t2 & E2 & N2).
      exists (t ++ t2)%list. split.
      * cbn [loop]. unfold mbind, M_bind. rewrite E. fold s'. now rewrite E2.
      * now rewrite times_sent_app, N, N2.
    + intros io' message' Hne Hio'.
      destruct (cycle_new_failure io' s' message' Hio') as (r' & t' & E' & N' & _).
      * cbn. congruence.
      * now exists r', t'.
Qed.

End Properties.

(** * The properties at work on the example inputs *)

Lemma get_api_answer_status_code_witness :
  (exists msg,
     get_api_answer example_process (fun _ => GetResponse 503 (Ret VNone)) (VInt 1000)
     = (Raise (Exn ConnectionError msg None),
        [HttpGet ENDPOINT (HEADERS example_process) (VInt 1000)])
     /\ Contains ENDPOINT msg
     /\ Contains "503" msg)
  /\ get_api_answer example_process
       (fun _ => GetResponse 200 (Ret (VDict empty_answer))) (VInt 1000)
     = (Ret (VDict empty_answer),
        [HttpGet ENDPOINT (HEADERS example_process) (VInt 1000)]).
Proof.
  split.
  - apply (proj1 (get_api_answer_status_code example_process
                    (fun _ => GetResponse 503 (Ret VNone)) (VInt 1000)
                    503 (Ret VNone) eq_refl)).
    discriminate.
  - apply (proj2 (get_api_answer_status_code example_process
                    (fun _ => GetResponse 200 (Ret (VDict empty_answer)))
                    (VInt 1000) 200 (Ret (VDict empty_answer)) eq_refl)).
    reflexivity.
Defined.

Lemma check_response_homeworks_witness :
  (exists msg,
     check_response (VDict [("homeworks", VStr "hw1"); ("current_date", VInt 2000)])
     = Raise (Exn TypeError msg None))
  /\ check_response (VDict example_answer) = Ret [VDict example_homework]
  /\ check_response (VDict empty_answer) = Ret [].
Proof.
  split; [|split].
  - apply (proj1 (check_response_homeworks
                    [("homeworks", VStr "hw1"); ("current_date", VInt 2000)]
                    (VInt 2000) (VStr "hw1") eq_refl eq_refl)).
    reflexivity.
  - apply (proj2 (check_response_homeworks example_answer (VInt 2000)
                    (VList [VDict example_homework]) eq_refl eq_refl)).
    reflexivity.
  - apply (proj2 (check_response_homeworks empty_answer (VInt 2000)
                    (VList []) eq_refl eq_refl)).
    reflexivity.
Defined.

Lemma missing_current_date_witness :
  (exists msg,
     check_response (VDict [("homeworks", VList [VDict example_homework])])
     = Raise (Exn DateError msg None))
  /\ cycle example_process
       (answers delivers [("homeworks", VList [VDict example_homework])])
       example_state
     = (Ret example_state,
        [HttpGet ENDPOINT (HEADERS example_process) (VInt 1000);
         Log ERROR "Ключа current_date нет в полученных данных";
         Sleep RETRY_TIME]).
Proof.
  destruct (missing_current_date example_process
              [("homeworks", VList [VDict example_homework])] eq_refl)
    as [D C].
  split.
  - exact D.
  - exact (C (answers delivers [("homeworks", VList [VDict example_homework])])
             example_state eq_refl).
Defined.

Lemma send_message_wraps_TelegramError_witness :
  (exists msg,
     send_message example_process refused "hello"
     = (Raise (Exn BotError msg
                   (Some (Exn TelegramError
                              "Forbidden: bot was blocked by the user" None))),
        [BotSend (Some "42") "hello"])
     /\ Contains "hello" msg)
  /\ send_message example_process broken "hello"
     = (Raise (Exn (OtherException "RuntimeError")
                   "cannot schedule new futures after shutdown" None),
        [BotSend (Some "42") "hello"]).
Proof.
  split.
  - exact (proj1 (send_message_wraps_TelegramError example_process refused
                    "hello"
                    (Exn TelegramError "Forbidden: bot was blocked by the user"
                         None)
                    eq_refl)
             eq_refl).
  - exact (proj2 (send_message_wraps_TelegramError example_process broken
                    "hello"
                    (Exn (OtherException "RuntimeError")
                         "cannot schedule new futures after shutdown" None)
                    eq_refl)
             eq_refl).
Defined.

(** C7, as stated, fails: an exception of the client that is not a
    [TelegramError] leaves [send_message] as it is, not as a [BotError]. *)
Lemma send_message_lets_other_errors_through :
  send_message example_process broken "hello"
  = (Raise (Exn (OtherException "RuntimeError")
                "cannot schedule new futures after shutdown" None),
     [BotSend (Some "42") "hello"])
  /\ is_BotError (Exn (OtherException "RuntimeError")
                      "cannot schedule new futures after shutdown" None)
     = false.
Proof. split; reflexivity. Qed.

Lemma parse_status_KeyError_witness :
  parse_status example_process (VDict nameless_homework)
  = Raise (Exn KeyError "Отсутствует ключ homework_name" None)
  /\ (exists msg,
        parse_status example_process (VDict unknown_homework)
        = Raise (Exn KeyError msg None)
        /\ Contains "unknown" msg)
  /\ (exists msg,
        parse_status example_process (VDict [("homework_name", VStr "hw1")])
        = Raise (Exn KeyError msg None)
        /\ Contains "None" msg).
Proof.
  split; [|split].
  - exact (proj1 (parse_status_KeyError example_process nameless_homework)
             eq_refl).
  - exact (proj2 (parse_status_KeyError example_process unknown_homework)
             eq_refl eq_refl).
  - exact (proj2 (parse_status_KeyError example_process
                    [("homework_name", VStr "hw1")])
             eq_refl eq_refl).
Defined.

(** C4, as stated, fails twice: a record without a name and with an
    unknown status gets the message about the name, in which the status
    does not occur; and a record whose status is a list gets a
    [TypeError], the list being unhashable. *)
Lemma parse_status_not_always_KeyError_with_status :
  (forall py : process,
     parse_status py (VDict nameless_homework)
     = Raise (Exn KeyError "Отсутствует ключ homework_name" None))
  /\ ~ Contains "unknown" "Отсутствует ключ homework_name"
  /\ (forall py : process,
        parse_status py (VDict unhashable_homework)
        = Raise (Exn TypeError "unhashable type: 'list'" None)).
Proof.
  split; [|split].
  - reflexivity.
  - intros H. apply Contains_occurs in H. vm_compute in H. discriminate.
  - reflexivity.
Qed.

Lemma cycle_BotError_DateError_witness :
  exists msg t,
    try_block example_process (answers refused example_answer) (VInt 1000)
    = (Raise (Exn BotError msg
                  (Some (Exn TelegramError
                             "Forbidden: bot was blocked by the user" None))),
       t)
    /\ cycle example_process (answers refused example_answer) example_state
       = (Ret example_state,
          (t ++ [Log ERROR msg; Sleep RETRY_TIME])%list).
Proof.
  eexists. eexists. split.
  - reflexivity.
  - exact (cycle_BotError_DateError example_process
             (answers refused example_answer) example_state _ _
             eq_refl eq_refl).
Defined.

Lemma parse_status_known_witness :
  parse_status example_process (VDict example_homework)
  = Ret ("Изменился статус проверки работы " ++ dquote ++ "hw1" ++ dquote
         ++ ". " ++ "Работа взята на проверку ревьюером.")
  /\ sent (snd (cycle example_process (answers delivers example_answer)
                  example_state))
     = ["Изменился статус проверки работы " ++ dquote ++ "hw1" ++ dquote
        ++ ". " ++ "Работа взята на проверку ревьюером."]
  /\ cycle example_process
       (answers delivers
          [("homeworks", VList [VDict example_homework; VStr "older"]);
           ("current_date", VInt 2000)])
       example_state
     = cycle example_process (answers delivers example_answer) example_state.
Proof.
  destruct (parse_status_known example_process example_homework
              "hw1" "reviewing" "Работа взята на проверку ревьюером."
              eq_refl ltac:(discriminate) eq_refl eq_refl)
    as (P & _ & _ & _ & F).
  split; [exact P|]. split; [reflexivity|].
  exact (F delivers example_state [] [("current_date", VInt 2000)]
           (VDict example_homework) [VStr "older"] eq_refl).
Defined.

Lemma cursor_moves_only_after_success_witness :
  (current_timestamp example_state = VInt 1000
   /\ forall io', exists r t1,
        cycle example_process io' example_state
        = (r, HttpGet ENDPOINT (HEADERS example_process) (VInt 1000) :: t1))
  /\ exists response homeworks,
       requests_get (answers delivers example_answer) (VInt 1000)
       = GetResponse 200 (Ret response)
       /\ check_response response = Ret homeworks
       /\ (forall homework rest,
             homeworks = homework :: rest ->
             exists text,
               parse_status example_process homework = Ret text
               /\ bot_send_message (answers delivers example_answer) text
                  = Ret tt).
Proof.
  split.
  - (* the notification of a status change fails: a [BotError] *)
    exact (proj1 (cursor_moves_only_after_success example_process
                    (answers refused example_answer)
                    example_state example_state _ eq_refl)
             _ _ eq_refl).
  - (* the cycle succeeds, and the timestamp goes from 1000 to 2000 *)
    apply (proj2 (cursor_moves_only_after_success example_process
                    (answers delivers example_answer) example_state
                    {| current_timestamp := VInt 2000; error_cache := "" |}
                    _ eq_refl)).
    discriminate.
Defined.

Lemma main_needs_the_three_values_witness :
  (exists key,
     In key ["PRACTICUM_TOKEN"; "TELEGRAM_TOKEN"; "TELEGRAM_CHAT_ID"]
     /\ main {| repr_str := repr_plain;
                PRACTICUM_TOKEN := Some "practicum";
                TELEGRAM_TOKEN := None;
                TELEGRAM_CHAT_ID := Some "42" |}
             {| time_time := 1000; telegram_Bot := Ret tt |}
             [answers delivers example_answer]
        = (Ret Returned,
           [Log CRITICAL ("Отсутствует переменная окружения " ++ key);
            Log CRITICAL "Работа бота была прервана"]))
  /\ main example_process {| time_time := 1000; telegram_Bot := Ret tt |}
       [answers delivers example_answer]
     = (lift (Ret tt) ;;
        s <- loop example_process [answers delivers example_answer]
               example_state ;;
        ret (Looping s)).
Proof.
  split.
  - apply (proj1 (main_needs_the_three_values
                    {| repr_str := repr_plain;
                       PRACTICUM_TOKEN := Some "practicum";
                       TELEGRAM_TOKEN := None;
                       TELEGRAM_CHAT_ID := Some "42" |}
                    {| time_time := 1000; telegram_Bot := Ret tt |}
                    [answers delivers example_answer])).
    right. left. reflexivity.
  - exact (proj2 (main_needs_the_three_values example_process
                    {| time_time := 1000; telegram_Bot := Ret tt |}
                    [answers delivers example_answer])
             eq_refl eq_refl eq_refl).
Defined.

Lemma example_failure_fails_with (bot : string -> result unit) (timestamp : value) :
  fails_with example_process (answers_status bot 503) timestamp example_failure.
Proof.
  unfold fails_with. eexists. eexists. split; [reflexivity|].
  split; reflexivity.
Defined.

Lemma generic_failure_sent_once_witness :
  (exists t,
     loop example_process
       [answers_status delivers 503; answers_status delivers 503]
       {| current_timestamp := VInt 1000; error_cache := example_failure |}
     = (Ret {| current_timestamp := VInt 1000; error_cache := example_failure |},
        t)
     /\ times_sent example_failure t = 0)
  /\ (exists t,
        loop example_process
          [answers_status delivers 503; answers_status delivers 503]
          example_state
        = (Ret {| current_timestamp := VInt 1000;
                  error_cache := example_failure |}, t)
        /\ times_sent example_failure t = 1).
Proof.
  split.
  - apply (proj1 (generic_failure_sent_once example_process
                    (answers_status delivers 503) [answers_status delivers 503]
                    {| current_timestamp := VInt 1000;
                       error_cache := example_failure |}
                    example_failure
                    (example_failure_fails_with delivers (VInt 1000))
                    (Forall_cons (answers_status delivers 503)
                                 (example_failure_fails_with delivers (VInt 1000))
                                 (Forall_nil _)))).
    reflexivity.
  - apply (proj2 (generic_failure_sent_once example_process
                    (answers_status delivers 503) [answers_status delivers 503]
                    example_state example_failure
                    (example_failure_fails_with delivers (VInt 1000))
                    (Forall_cons (answers_status delivers 503)
                                 (example_failure_fails_with delivers (VInt 1000))
                                 (Forall_nil _)))).
    + discriminate.
    + reflexivity.
Defined.

(** C1, as stated, fails: a failure that comes back after a cycle that
    went well starts a new run of failing cycles, and nothing is sent for
    it, its message being still in [error_cache].  Here the API answers
    503, then 200 with no homework, then 503 again: the message is sent in
    the first cycle and in no other. *)
Lemma failure_after_recovery_is_not_sent :
  let s1 := {| current_timestamp := VInt 1000; error_cache := example_failure |} in
  let s2 := {| current_timestamp := VInt 2000; error_cache := example_failure |} in
  fst (cycle example_process (answers_status delivers 503) example_state) = Ret s1
  /\ sent (snd (cycle example_process (answers_status delivers 503) example_state))
     = [example_failure]
  /\ fst (cycle example_process (answers delivers empty_answer) s1) = Ret s2
  /\ fst (try_block example_process (answers delivers empty_answer) (VInt 1000))
     = Ret (VInt 2000)
  /\ fails_with example_process (answers_status delivers 503) (VInt 2000)
       example_failure
  /\ fst (cycle example_process (answers_status delivers 503) s2) = Ret s2
  /\ sent (snd (cycle example_process (answers_status delivers 503) s2)) = [].
Proof.
  cbv zeta. repeat split; try reflexivity.
  apply example_failure_fails_with.
Qed.

(** * Further properties of the code *)

Section Further.

Variable py : process.

(** ** [send_message] *)

(** X1: [send_message] calls the client exactly once, with the chat of the
    environment and the text; it returns when the client returns, and only
    then logs the delivery, at info level; it raises when the client
    raises. *)
Theorem send_message_outcome (bot : string -> result unit) (message : string) :
  exists t,
    snd (send_message py bot message)
    = BotSend (TELEGRAM_CHAT_ID py) message :: t
    /\ sent t = []
    /\ (fst (send_message py bot message) = Ret tt <-> bot message = Ret tt)
    /\ (bot message = Ret tt <->
        t = [Log INFO ("Сообщение [" ++ message ++ "] отправлено")])
    /\ ((exists error, bot message = Raise error) <-> t = []).
Proof.
  unfold send_message. destruct (bot message) as [[]|error].
  - eexists. split; [reflexivity|]. split; [reflexivity|].
    repeat split; try discriminate; auto.
    intros (e & H). discriminate.
  - exists []. destruct (is_TelegramError error); cbn;
      (split; [reflexivity|]); (split; [reflexivity|]);
      repeat split; try discriminate; eauto.
Qed.

(** ** [get_api_answer] *)

(** X2: when [requests.get] raises a [RequestException],
    [get_api_answer] raises a [ConnectionError] whose message holds the
    endpoint and the text of that exception, and whose cause is that
    exception; any other exception of [requests.get] leaves
    [get_api_answer] as it is. *)
Theorem get_api_answer_transport_failure
  (get : value -> get_outcome) (timestamp : value) (error : exn) :
  get timestamp = GetRaises error ->
  if is_RequestException error then
    exists msg,
      fst (get_api_answer py get timestamp)
      = Raise (Exn ConnectionError msg (Some error))
      /\ Contains ENDPOINT msg
      /\ Contains (str_exn py error) msg
  else fst (get_api_answer py get timestamp) = Raise error.
Proof.
  intros H. unfold get_api_answer. rewrite H.
  destruct (is_RequestException error); [|reflexivity].
  eexists. split; [reflexivity|]. split.
  - apply Contains_app_r, Contains_here.
  - apply Contains_app_r, Contains_app_r, Contains_app_r, Contains_end.
Qed.

(** X3: whatever the outside does, [get_api_answer] makes one request and
    nothing else: to the endpoint, with the OAuth header of the
    environment, and with the timestamp it was given as [from_date]; and
    it returns only a body that came with the status 200. *)
Theorem get_api_answer_one_request
  (get : value -> get_outcome) (timestamp : value) :
  snd (get_api_answer py get timestamp)
  = [HttpGet ENDPOINT ("OAuth " ++ str_env (PRACTICUM_TOKEN py)) timestamp]
  /\ forall body,
       fst (get_api_answer py get timestamp) = Ret body <->
       get timestamp = GetResponse 200 (Ret body).
Proof.
  unfold get_api_answer.
  destruct (get timestamp) as [error|code json].
  - destruct (is_RequestException error); (split; [reflexivity|]);
      intros body; split; discriminate.
  - destruct (code =? 200)%Z eqn:E; cbn [negb].
    + apply Z.eqb_eq in E. subst code. split; [reflexivity|].
      intros body. cbn. split; congruence.
    + split; [reflexivity|]. intros body. cbn. split; [discriminate|].
      intros [= -> _]. discriminate.
Qed.

(** ** [check_response] *)

(** X4: [check_response] returns a list exactly when its argument is a
    dict that has the key [current_date] and a list under [homeworks]; the
    list returned is that one. *)
Theorem check_response_Ret_iff (response : value) (l : list value) :
  check_response response = Ret l <->
  exists d,
    response = VDict d
    /\ has_key "current_date" d = true
    /\ lookup "homeworks" d = Some (VList l).
Proof.
  split.
  - destruct response as [| | | | | |d]; try discriminate.
    intros H. exists d. split; [reflexivity|].
    unfold check_response, has_key, dict_get in *.
    destruct (lookup "current_date" d); [|discriminate].
    destruct (lookup "homeworks" d) as [h|]; [|discriminate].
    cbn [negb] in H. destruct h; try discriminate.
    injection H as ->. split; reflexivity.
  - intros (d & -> & Hd & Hh). unfold check_response.
    now rewrite Hd, (has_key_lookup _ _ _ Hh), (dict_get_lookup _ _ _ Hh).
Qed.

(** X5: the errors of [check_response], in the order the code tests them:
    a [TypeError] naming the type for anything that is not a dict; a
    [DateError] for a dict without [current_date], whether it has
    [homeworks] or not; a [KeyError] for a dict with [current_date] and
    without [homeworks]. *)
Theorem check_response_errors (response : value) :
  match response with
  | VDict d =>
      if has_key "current_date" d then
        has_key "homeworks" d = false ->
        check_response response
        = Raise (Exn KeyError "Ключа homeworks нет в полученных данных" None)
      else
        check_response response
        = Raise (Exn DateError "Ключа current_date нет в полученных данных" None)
  | _ =>
      exists msg,
        check_response response = Raise (Exn TypeError msg None)
        /\ Contains ("<class '" ++ type_name response ++ "'>") msg
  end.
Proof.
  destruct response as [| | | | | |d];
    try (eexists; split;
         [reflexivity
         | now exists "Ошибка в типе полученных данных Тип данных: ", ""]).
  unfold check_response.
  destruct (has_key "current_date" d); [|reflexivity].
  intros H. cbn [negb]. rewrite H. reflexivity.
Qed.
(** ** [parse_status] *)

(** X6: [parse_status] returns a text exactly when its argument is a dict
    whose [homework_name] is true for Python (a non-empty string, but also
    a non-zero number or a non-empty list) and whose [status] is a string
    of the catalog; the text is then the sentence with the name as
    printed and the verdict of that status. *)
Theorem parse_status_Ret_iff (homework : value) (text : string) :
  parse_status py homework = Ret text <->
  exists d status verdict,
    homework = VDict d
    /\ truthy (dict_get "homework_name" d) = true
    /\ dict_get "status" d = VStr status
    /\ lookup status HOMEWORK_STATUSES = Some verdict
    /\ text = "Изменился статус проверки работы " ++ dquote
              ++ py_str py (dict_get "homework_name" d) ++ dquote ++ ". "
              ++ verdict.
Proof.
  split.
  - destruct homework as [| | | | | |d]; try discriminate.
    rewrite parse_status_dict.
    destruct (truthy (dict_get "homework_name" d)) eqn:Hn; [|discriminate].
    cbn [negb].
    destruct (dict_get "status" d) as [| | | |status| |] eqn:Hs;
      try discriminate.
    cbn [in_HOMEWORK_STATUSES mbind result_bind str_verdict]. unfold has_key.
    destruct (lookup status HOMEWORK_STATUSES) as [verdict|] eqn:Hv;
      [|discriminate].
    cbn [negb]. intros [= <-]. exists d, status, verdict. auto.
  - intros (d & status & verdict & -> & Hn & Hs & Hv & ->).
    rewrite parse_status_dict, Hn, Hs.
    cbn [negb in_HOMEWORK_STATUSES mbind result_bind str_verdict].
    now rewrite (has_key_lookup _ _ _ Hv), Hv.
Qed.

(** X7: the errors of [parse_status], by the argument.  Anything that is
    not a dict has no [get]: an [AttributeError] naming its type.  For a
    dict, the name is tested first: without a true name, a [KeyError],
    whatever the status; with one, a status that is a list or a dict
    cannot be looked up in the catalog: a [TypeError], unhashable type;
    and any other status that makes [parse_status] fail gives a
    [KeyError]. *)
Theorem parse_status_error_class (homework : value) (error : exn) :
  parse_status py homework = Raise error ->
  match homework with
  | VDict d =>
      if truthy (dict_get "homework_name" d) then
        match dict_get "status" d with
        | VList _ | VDict _ =>
            error = Exn TypeError
                        ("unhashable type: '"
                         ++ type_name (dict_get "status" d) ++ "'")
                        None
        | _ => exn_cls error = KeyError
        end
      else error = Exn KeyError "Отсутствует ключ homework_name" None
  | _ =>
      error = Exn AttributeError
                  ("'" ++ type_name homework
                   ++ "' object has no attribute 'get'")
                  None
  end.
Proof.
  destruct homework as [| | | | | |d]; try (intros [= <-]; reflexivity).
  rewrite parse_status_dict.
  destruct (truthy (dict_get "homework_name" d)); cbn [negb];
    [|intros [= <-]; reflexivity].
  destruct (dict_get "status" d) as [| | | |status| |];
    cbn [in_HOMEWORK_STATUSES mbind result_bind negb];
    try (intros [= <-]; reflexivity).
  destruct (has_key status HOMEWORK_STATUSES); cbn [negb];
    [discriminate | intros [= <-]; reflexivity].
Qed.

(** ** [check_tokens] and the start of [main] *)

Lemma check_items_find (items : list (string * option string)) :
  check_items items
  = match find (fun kv => negb (truthy_env (snd kv))) items with
    | Some (key, _) =>
        (Ret false,
         [Log CRITICAL ("Отсутствует переменная окружения " ++ key)])
    | None => (Ret true, [])
    end.
Proof.
  induction items as [|[key value] items IH]; [reflexivity|].
  cbn [check_items find snd].
  destruct (negb (truthy_env value)); [reflexivity | exact IH].
Qed.

(** X9: [check_tokens] answers [True] exactly when the three variables
    are set and not empty, and then logs nothing; otherwise it logs one
    critical entry, which names the first variable that is missing, in the
    order [PRACTICUM_TOKEN], [TELEGRAM_TOKEN], [TELEGRAM_CHAT_ID], and says
    nothing of the others. *)
Theorem check_tokens_first_missing :
  check_tokens py
  = match find (fun kv => negb (truthy_env (snd kv)))
               [ ("PRACTICUM_TOKEN", PRACTICUM_TOKEN py);
                 ("TELEGRAM_TOKEN", TELEGRAM_TOKEN py);
                 ("TELEGRAM_CHAT_ID", TELEGRAM_CHAT_ID py) ] with
    | Some (key, _) =>
        (Ret false,
         [Log CRITICAL ("Отсутствует переменная окружения " ++ key)])
    | None => (Ret true, [])
    end
  /\ (fst (check_tokens py) = Ret true <->
      truthy_env (PRACTICUM_TOKEN py) = true
      /\ truthy_env (TELEGRAM_TOKEN py) = true
      /\ truthy_env (TELEGRAM_CHAT_ID py) = true).
Proof.
  split; [apply check_items_find|].
  rewrite check_tokens_cases.
  destruct (truthy_env (PRACTICUM_TOKEN py)),
    (truthy_env (TELEGRAM_TOKEN py)),
    (truthy_env (TELEGRAM_CHAT_ID py)); cbn;
    split; try discriminate; auto; intros (? & ? & ?); discriminate.
Qed.

(** X10: when the three variables are there and [telegram.Bot] raises,
    [main] raises that exception at once: no request is made, nothing is
    logged, and no cycle runs. *)
Theorem main_Bot_raises (st : startup) (ios : list cycle_io) (error : exn) :
  truthy_env (PRACTICUM_TOKEN py) = true ->
  truthy_env (TELEGRAM_TOKEN py) = true ->
  truthy_env (TELEGRAM_CHAT_ID py) = true ->
  telegram_Bot st = Raise error ->
  main py st ios = (Raise error, []).
Proof.
  intros H1 H2 H3 Hb. unfold main.
  rewrite check_tokens_cases, H1, H2, H3, Hb. reflexivity.
Qed.

(** ** The events of a cycle *)

Lemma requests_app (t1 t2 : list event) :
  requests (t1 ++ t2) = (requests t1 ++ requests t2)%list.
Proof.
  induction t1 as [|ev t1 IH]; [reflexivity|].
  destruct ev; cbn; now rewrite IH.
Qed.

Lemma sleeps_app (t1 t2 : list event) :
  sleeps (t1 ++ t2) = (sleeps t1 ++ sleeps t2)%list.
Proof.
  induction t1 as [|ev t1 IH]; [reflexivity|].
  destruct ev; cbn; now rewrite IH.
Qed.

Lemma send_message_quiet (bot : string -> result unit) (message : string) :
  requests (snd (send_message py bot message)) = []
  /\ sleeps (snd (send_message py bot message)) = [].
Proof.
  unfold send_message. destruct (bot message) as [[]|error].
  - split; reflexivity.
  - destruct (is_TelegramError error); split; reflexivity.
Qed.

#[local] Ltac shown := eexists; eexists; repeat split; reflexivity.

Lemma try_block_events (io : cycle_io) (timestamp : value) :
  exists r t,
    try_block py io timestamp
    = (r, HttpGet ENDPOINT (HEADERS py) timestamp :: t)
    /\ requests t = [] /\ sleeps t = [].
Proof.
  unfold try_block, get_api_answer.
  destruct (requests_get io timestamp) as [error|code json].
  - destruct (is_RequestException error); cbn; shown.
  - destruct (negb (code =? 200)%Z); [cbn; shown|].
    destruct json as [response|e]; [|cbn; shown].
    cbn [mbind M_bind lift].
    destruct (check_response response) as [[|homework rest]|e];
      [| |cbn; shown].
    + destruct (py_get response "current_date"); cbn; shown.
    + destruct (parse_status py homework) as [text|e]; [|cbn; shown].
      destruct (send_message_quiet (bot_send_message io) text) as [Q1 Q2].
      destruct (send_message py (bot_send_message io) text) as [[[]|e] t'];
        cbn [snd] in Q1, Q2.
      * destruct (py_get response "current_date"); cbn [ret app];
          eexists; eexists; (split; [reflexivity|]);
          rewrite ?requests_app, ?sleeps_app, ?app_nil_r, Q1, Q2;
          split; reflexivity.
      * cbn [app]. eexists. eexists. split; [reflexivity|]. now split.
Qed.

Lemma except_clauses_events
  (io : cycle_io) (s : state) (error : exn) (r : result state) (t : list event) :
  except_clauses py io s error = Some (r, t) ->
  requests t = [] /\ sleeps t = [].
Proof.
  unfold except_clauses.
  destruct (is_BotError error || is_DateError error).
  - cbn. intros [= _ <-]. split; reflexivity.
  - destruct (is_Exception error); [|discriminate].
    destruct (negb (error_cache s =? failure_message py error)).
    + cbn [mbind M_bind logger emit ret].
      destruct (send_message_quiet (bot_send_message io)
                  (failure_message py error)) as [Q1 Q2].
      destruct (send_message py (bot_send_message io) (failure_message py error))
        as [[[]|e] t']; cbn [snd] in Q1, Q2; cbn; intros [= _ <-];
        cbn [requests sleeps];
        rewrite ?requests_app, ?sleeps_app, ?app_nil_r, Q1, Q2;
        split; reflexivity.
    + cbn. intros [= _ <-]. split; reflexivity.
Qed.

(** X11: whatever happens in it, whether the loop goes on after it or an
    exception leaves it, a cycle starts with its one request, which
    carries [current_timestamp] as [from_date], and ends with its one
    sleep, of [RETRY_TIME] seconds. *)
Theorem cycle_one_request_one_sleep (io : cycle_io) (s : state) :
  exists t,
    snd (cycle py io s)
    = (HttpGet ENDPOINT (HEADERS py) (current_timestamp s) :: t
       ++ [Sleep 600])%list
    /\ requests t = []
    /\ sleeps t = [].
Proof.
  rewrite cycle_cases.
  destruct (try_block_events io (current_timestamp s))
    as (r & t & -> & R & S).
  destruct r as [v|error].
  - exists t. cbn. auto.
  - destruct (except_clauses py io s error) as [[r' t']|] eqn:He.
    + destruct (except_clauses_events _ _ _ _ _ He) as [R' S'].
      exists (t ++ t')%list. cbn [snd].
      rewrite requests_app, sleeps_app, R, S, R', S'.
      split; [|split; reflexivity].
      cbn [app]. now rewrite app_assoc.
    + exists t. cbn. auto.
Qed.

Lemma cycle_requests_sleeps (io : cycle_io) (s : state) :
  requests (snd (cycle py io s)) = [current_timestamp s]
  /\ sleeps (snd (cycle py io s)) = [600%Z].
Proof.
  rewrite cycle_cases.
  destruct (try_block_events io (current_timestamp s))
    as (r & t & -> & R & S).
  destruct r as [v|error].
  - cbn [snd requests sleeps app]. rewrite requests_app, sleeps_app, R, S.
    split; reflexivity.
  - destruct (except_clauses py io s error) as [[r' t']|] eqn:He;
      cbn [snd requests sleeps app]; rewrite !requests_app, !sleeps_app, R, S.
    + destruct (except_clauses_events _ _ _ _ _ He) as [-> ->].
      split; reflexivity.
    + split; reflexivity.
Qed.

(** X12: the loop paces itself: in any number of cycles, every request is
    followed by a sleep of 600 seconds before the next one, so there are as
    many sleeps as requests, and at most one of each per cycle given;
    when no exception has left the loop, there is exactly one of each per
    cycle. *)
Theorem loop_pacing (ios : list cycle_io) (s : state) :
  length (requests (snd (loop py ios s)))
  = length (sleeps (snd (loop py ios s)))
  /\ Forall (eq 600%Z) (sleeps (snd (loop py ios s)))
  /\ length (sleeps (snd (loop py ios s))) <= length ios
  /\ (forall s', fst (loop py ios s) = Ret s' ->
      length (sleeps (snd (loop py ios s))) = length ios).
Proof.
  revert s. induction ios as [|io ios IH]; intros s.
  - cbn. repeat split; auto.
  - cbn [loop]. unfold mbind, M_bind.
    destruct (cycle_requests_sleeps io s) as [R S].
    destruct (cycle py io s) as [[s1|e] t1]; cbn [snd] in R, S.
    + destruct (IH s1) as (L & F & B & E).
      destruct (loop py ios s1) as [r t2]. cbn [fst snd] in *.
      rewrite requests_app, sleeps_app, R, S. cbn [app length].
      split; [now rewrite L|]. split; [now constructor|].
      split; [lia|]. intros s' H. now rewrite (E s' H).
    + cbn [fst snd]. rewrite R, S. cbn [length].
      split; [reflexivity|]. split; [now repeat constructor|].
      split; [lia | discriminate].
Qed.

(** ** What a cycle does to the variables *)

(** X13: a cycle whose request is answered 200 with a dict that
    [check_response] accepts, and whose first homework, if there is one,
    is formatted and delivered, goes on with [current_timestamp] set to
    the [current_date] of the answer when that is an int (a bool is one
    for Python), and left as it was otherwise; [error_cache] is left as it
    was.  It sends the sentence of the first homework and nothing else;
    with no homework it sends nothing. *)
Theorem cycle_success
  (io : cycle_io) (s : state) (d : list (string * value)) (l : list value) :
  requests_get io (current_timestamp s) = GetResponse 200 (Ret (VDict d)) ->
  check_response (VDict d) = Ret l ->
  (forall homework rest,
     l = homework :: rest ->
     exists text,
       parse_status py homework = Ret text
       /\ bot_send_message io text = Ret tt) ->
  exists t,
    cycle py io s
    = (Ret {| current_timestamp :=
                if isinstance_int (dict_get "current_date" d)
                then dict_get "current_date" d
                else current_timestamp s;
              error_cache := error_cache s |},
       t)
    /\ sent t
       = match l with
         | [] => []
         | homework :: _ =>
             match parse_status py homework with
             | Ret text => [text]
             | Raise _ => []
             end
         end.
Proof.
  intros Hget Hcheck Hfirst.
  rewrite cycle_cases. unfold try_block, get_api_answer. rewrite Hget.
  cbn [Z.eqb Pos.eqb negb mbind M_bind lift]. rewrite Hcheck.
  destruct l as [|homework rest].
  - cbn. eexists. split; reflexivity.
  - destruct (Hfirst homework rest eq_refl) as (text & Hp & Hb).
    rewrite Hp. unfold send_message. rewrite Hb.
    cbn. eexists. split; reflexivity.
Qed.

Lemma try_block_Ret_value
  (io : cycle_io) (timestamp v : value) (t : list event) :
  try_block py io timestamp = (Ret v, t) ->
  exists date, v = if isinstance_int date then date else timestamp.
Proof.
  unfold try_block, get_api_answer.
  destruct (requests_get io timestamp) as [error|code json].
  - destruct (is_RequestException error); cbn; discriminate.
  - destruct (negb (code =? 200)%Z); [cbn; discriminate|].
    destruct json as [response|e]; [|cbn; discriminate].
    cbn [mbind M_bind lift].
    destruct (check_response response) as [[|homework rest]|e];
      [| |cbn; discriminate].
    + destruct (py_get response "current_date") as [date|e]; cbn;
        [|discriminate].
      intros [= <- _]. now exists date.
    + destruct (parse_status py homework) as [text|e]; [|cbn; discriminate].
      destruct (send_message py (bot_send_message io) text) as [[[]|e] t'];
        [|cbn; discriminate].
      destruct (py_get response "current_date") as [date|e]; cbn;
        [|discriminate].
      intros [= <- _]. now exists date.
Qed.

Lemma cycle_keeps_int (io : cycle_io) (s s' : state) (t : list event) :
  isinstance_int (current_timestamp s) = true ->
  cycle py io s = (Ret s', t) ->
  isinstance_int (current_timestamp s') = true.
Proof.
  intros Hi Hc. rewrite cycle_cases in Hc.
  destruct (try_block py io (current_timestamp s)) as [[v|error] t0] eqn:Ht.
  - injection Hc as <- _. cbn.
    destruct (try_block_Ret_value _ _ _ _ Ht) as (date & ->).
    now destruct (isinstance_int date) eqn:E.
  - destruct (except_clauses py io s error) as [[r t']|] eqn:He;
      [|discriminate].
    injection Hc as -> _.
    now rewrite (except_clauses_timestamp _ _ _ _ _ _ He).
Qed.

Lemma loop_keeps_int (ios : list cycle_io) (s : state) :
  isinstance_int (current_timestamp s) = true ->
  Forall (fun v => isinstance_int v = true) (requests (snd (loop py ios s)))
  /\ forall s', fst (loop py ios s) = Ret s' ->
       isinstance_int (current_timestamp s') = true.
Proof.
  revert s. induction ios as [|io ios IH]; intros s Hi.
  - cbn. split; [constructor|]. now intros s' [= <-].
  - cbn [loop]. unfold mbind, M_bind.
    destruct (cycle_requests_sleeps io s) as [R _].
    destruct (cycle py io s) as [[s1|e] t1] eqn:Hc; cbn [snd] in R.
    + destruct (IH s1 (cycle_keeps_int _ _ _ _ Hi Hc)) as [F E].
      destruct (loop py ios s1) as [r t2]. cbn [fst snd] in *.
      rewrite requests_app, R. split; [now constructor | exact E].
    + cbn [fst snd]. rewrite R. split; [now repeat constructor | discriminate].
Qed.

(** X14: every [from_date] that [main] sends is an int for Python (the
    time at startup, or a [current_date] that was an int or a bool): a
    [current_date] that is a string, a float, a null, a list or a dict
    never becomes the [from_date] of a request; and the
    [current_timestamp] the loop holds is always such an int. *)
Theorem main_from_date_is_int (st : startup) (ios : list cycle_io) :
  Forall (fun v => isinstance_int v = true) (requests (snd (main py st ios)))
  /\ forall s, fst (main py st ios) = Ret (Looping s) ->
       isinstance_int (current_timestamp s) = true.
Proof.
  unfold main. rewrite check_tokens_cases.
  destruct (truthy_env (PRACTICUM_TOKEN py)); cbn [negb];
    [|cbn; split; [constructor | discriminate]].
  destruct (truthy_env (TELEGRAM_TOKEN py)); cbn [negb];
    [|cbn; split; [constructor | discriminate]].
  destruct (truthy_env (TELEGRAM_CHAT_ID py)); cbn [negb];
    [|cbn; split; [constructor | discriminate]].
  cbn [mbind M_bind lift].
  destruct (telegram_Bot st) as [[]|e];
    [|cbn; split; [constructor | discriminate]].
  destruct (loop_keeps_int ios
              {| current_timestamp := VInt (time_time st); error_cache := "" |}
              eq_refl) as [F E].
  destruct (loop py ios _) as [[s1|e] t]; cbn [fst snd] in *.
  - cbn. rewrite app_nil_r. split; [exact F|].
    intros s [= <-]. now apply E.
  - cbn. split; [exact F | discriminate].
Qed.

Lemma except_clauses_cache
  (io : cycle_io) (s s' : state) (error : exn) (t : list event) :
  except_clauses py io s error = Some (Ret s', t) ->
  s' = s
  \/ (is_generic error = true
      /\ error_cache s' = failure_message py error
      /\ bot_send_message io (failure_message py error) = Ret tt
      /\ In (failure_message py error) (sent t)).
Proof.
  unfold except_clauses, is_generic.
  destruct (is_BotError error || is_DateError error).
  - cbn. intros [= <- _]. now left.
  - destruct (is_Exception error); [|discriminate].
    destruct (negb (error_cache s =? failure_message py error)).
    + cbn [mbind M_bind logger emit ret].
      unfold send_message.
      destruct (bot_send_message io (failure_message py error)) as [[]|e].
      * cbn. intros [= <- <-]. right. cbn. auto.
      * destruct (is_TelegramError e); cbn; discriminate.
    + cbn. intros [= <- _]. now left.
Qed.

Lemma cycle_cache (io : cycle_io) (s s' : state) (t : list event) :
  cycle py io s = (Ret s', t) ->
  error_cache s' = error_cache s
  \/ exists error,
       is_generic error = true
       /\ error_cache s' = failure_message py error
       /\ bot_send_message io (error_cache s') = Ret tt
       /\ In (error_cache s') (sent t).
Proof.
  intros Hc. rewrite cycle_cases in Hc.
  destruct (try_block py io (current_timestamp s)) as [[v|error] t0].
  - injection Hc as <- _. now left.
  - destruct (except_clauses py io s error) as [[r t']|] eqn:He;
      [|discriminate].
    injection Hc as -> <-.
    destruct (except_clauses_cache _ _ _ _ _ He) as [->|(G & E & B & I)].
    + now left.
    + right. exists error. rewrite E. repeat split; auto.
      rewrite !sent_app. apply in_or_app. right. apply in_or_app. now left.
Qed.

Lemma loop_cache (ios : list cycle_io) (s s' : state) (t : list event) :
  loop py ios s = (Ret s', t) ->
  error_cache s' = error_cache s
  \/ exists error,
       is_generic error = true
       /\ error_cache s' = failure_message py error
       /\ In (error_cache s') (sent t).
Proof.
  revert s t. induction ios as [|io ios IH]; intros s t.
  - cbn. intros [= <- _]. now left.
  - cbn [loop]. unfold mbind, M_bind.
    destruct (cycle py io s) as [[s1|e] t1] eqn:Hc; [|discriminate].
    destruct (loop py ios s1) as [r t2] eqn:Hl.
    intros [= -> <-].
    destruct (IH _ _ Hl) as [E|(error & G & E & I)].
    + destruct (cycle_cache _ _ _ _ Hc) as [E1|(error & G & E1 & _ & I)].
      * left. congruence.
      * right. exists error. rewrite E. repeat split; auto.
        rewrite sent_app. apply in_or_app. now left.
    + right. exists error. repeat split; auto.
      rewrite sent_app. apply in_or_app. now right.
Qed.

(** X15: as long as [main] is in its loop, [error_cache] holds either the
    empty string it started with, or the failure message of an error of
    the [except Exception] clause that was handed to the Telegram client
    earlier in the run: nothing else is ever stored in it, and a
    message that was not sent is never stored. *)
Theorem main_error_cache (st : startup) (ios : list cycle_io) (s : state) :
  fst (main py st ios) = Ret (Looping s) ->
  error_cache s = ""
  \/ exists error,
       is_generic error = true
       /\ error_cache s = failure_message py error
       /\ In (error_cache s) (sent (snd (main py st ios))).
Proof.
  unfold main. rewrite check_tokens_cases.
  destruct (truthy_env (PRACTICUM_TOKEN py)); cbn [negb]; [|discriminate].
  destruct (truthy_env (TELEGRAM_TOKEN py)); cbn [negb]; [|discriminate].
  destruct (truthy_env (TELEGRAM_CHAT_ID py)); cbn [negb]; [|discriminate].
  cbn [mbind M_bind lift].
  destruct (telegram_Bot st) as [[]|e]; [|discriminate].
  destruct (loop py ios _) as [[s1|e] t] eqn:Hl; [|discriminate].
  cbn. intros [= <-]. rewrite app_nil_r.
  destruct (loop_cache _ _ _ _ Hl) as [E|H]; [now left | now right].
Qed.

(** X16: an exception leaves a cycle, and with it the loop and [main], in
    two cases only: the [try] block raised what is not an [Exception]
    (a keyboard interrupt, an exit), or it raised an error of the
    [except Exception] clause whose message is not in [error_cache], and
    sending that message raised in its turn.  A [BotError] or a
    [DateError] of the [try] block, and a failure whose message is in
    [error_cache], never stop the loop. *)
Theorem cycle_raises (io : cycle_io) (s : state) (e : exn) (t : list event) :
  cycle py io s = (Raise e, t) ->
  exists error t0,
    try_block py io (current_timestamp s) = (Raise error, t0)
    /\ is_BotError error || is_DateError error = false
    /\ ((is_Exception error = false /\ e = error)
        \/ (is_Exception error = true
            /\ error_cache s <> failure_message py error
            /\ fst (send_message py (bot_send_message io)
                      (failure_message py error))
               = Raise e)).
Proof.
  intros Hc. rewrite cycle_cases in Hc.
  destruct (try_block py io (current_timestamp s)) as [[v|error] t0];
    [discriminate|].
  exists error, t0. split; [reflexivity|].
  unfold except_clauses in Hc.
  destruct (is_BotError error || is_DateError error); [discriminate|].
  split; [reflexivity|].
  destruct (is_Exception error).
  - right. split; [reflexivity|].
    destruct (error_cache s =? failure_message py error) eqn:E;
      cbn [negb] in Hc; [discriminate|].
    apply String.eqb_neq in E. split; [exact E|].
    cbn [mbind M_bind logger emit ret] in Hc.
    destruct (send_message py (bot_send_message io) (failure_message py error))
      as [[[]|e'] t']; [discriminate|].
    cbn in Hc. now injection Hc as -> _.
  - left. split; [reflexivity|]. now injection Hc as -> _.
Qed.

(** X17: the first failure is always reported: with the empty
    [error_cache] of startup, a cycle that fails with an error of the
    [except Exception] clause hands its failure message to the Telegram
    client, once; no failure message is the empty string. *)
Theorem first_failure_is_sent (io : cycle_io) (s : state) (message : string) :
  error_cache s = "" ->
  fails_with py io (current_timestamp s) message ->
  times_sent message (snd (cycle py io s)) = 1.
Proof.
  intros Hc Hf.
  assert (Hne : error_cache s <> message).
  { rewrite Hc. destruct Hf as (error & _ & _ & _ & <-).
    unfold failure_message. cbn. discriminate. }
  destruct (cycle_new_failure py io s message Hf Hne) as (r & t & -> & N & _).
  exact N.
Qed.


(** ** What a cycle sends *)

Lemma try_block_sent_once (io : cycle_io) (timestamp : value) :
  length (sent (snd (try_block py io timestamp))) <= 1.
Proof.
  unfold try_block, get_api_answer.
  destruct (requests_get io timestamp) as [error|code json].
  - destruct (is_RequestException error); cbn; lia.
  - destruct (negb (code =? 200)%Z); [cbn; lia|].
    destruct json as [response|e]; [|cbn; lia].
    cbn [mbind M_bind lift].
    destruct (check_response response) as [[|homework rest]|e];
      [| |cbn; lia].
    + destruct (py_get response "current_date"); cbn; lia.
    + destruct (parse_status py homework) as [text|e]; [|cbn; lia].
      assert (S := send_message_sent py (bot_send_message io) text).
      destruct (send_message py (bot_send_message io) text) as [[[]|e] t'];
        cbn [snd] in S.
      * destruct (py_get response "current_date"); cbn;
          rewrite ?sent_app, S; cbn; lia.
      * cbn. rewrite S. cbn. lia.
Qed.

Lemma except_clauses_sent
  (io : cycle_io) (s : state) (error : exn) (r : result state) (t : list event) :
  except_clauses py io s error = Some (r, t) ->
  sent t = []
  \/ (sent t = [failure_message py error]
      /\ is_generic error = true
      /\ failure_message py error <> error_cache s).
Proof.
  unfold except_clauses, is_generic.
  destruct (is_BotError error || is_DateError error).
  - cbn. intros [= _ <-]. now left.
  - destruct (is_Exception error); [|discriminate].
    destruct (error_cache s =? failure_message py error) eqn:E; cbn [negb].
    + cbn. intros [= _ <-]. now left.
    + apply String.eqb_neq in E.
      cbn [mbind M_bind logger emit ret].
      assert (S := send_message_sent py (bot_send_message io)
                     (failure_message py error)).
      destruct (send_message py (bot_send_message io) (failure_message py error))
        as [[[]|e] t']; cbn [snd] in S; cbn [app]; intros [= _ <-];
        right; cbn [sent]; rewrite ?sent_app, S; cbn; auto.
Qed.

(** X8: a cycle hands at most two texts to the Telegram client: at most
    one status sentence, made by [parse_status], and after it at most one
    failure message, which is then the message of an error of the
    [except Exception] clause and is not what [error_cache] holds.  It
    never sends two status sentences, nor a failure message twice. *)
Theorem cycle_sends_at_most_two (io : cycle_io) (s : state) :
  exists texts messages,
    sent (snd (cycle py io s)) = (texts ++ messages)%list
    /\ length texts <= 1
    /\ length messages <= 1
    /\ (forall text, In text texts ->
        exists homework, parse_status py homework = Ret text)
    /\ (forall message, In message messages ->
        message <> error_cache s
        /\ exists error,
             is_generic error = true /\ message = failure_message py error).
Proof.
  rewrite cycle_cases.
  assert (L := try_block_sent_once io (current_timestamp s)).
  destruct (try_block py io (current_timestamp s)) as [r t] eqn:Ht.
  cbn [snd] in L.
  assert (P : forall text, In text (sent t) ->
                exists homework, parse_status py homework = Ret text).
  { intros text. exact (try_block_sent py _ _ _ _ _ Ht). }
  destruct r as [v|error].
  - exists (sent t), []. cbn [snd]. rewrite sent_app. cbn.
    repeat split; auto; try lia; contradiction.
  - destruct (except_clauses py io s error) as [[r' t']|] eqn:He.
    + destruct (except_clauses_sent _ _ _ _ _ He) as [S|(S & G & N)].
      * exists (sent t), []. cbn [snd]. rewrite !sent_app, S. cbn.
        repeat split; auto; try lia; contradiction.
      * exists (sent t), [failure_message py error]. cbn [snd].
        rewrite !sent_app, S. cbn.
        repeat split; auto; try lia;
          destruct H as [<-|[]]; eauto.
    + exists (sent t), []. cbn [snd]. rewrite sent_app. cbn.
      repeat split; auto; try lia; contradiction.
Qed.

End Further.

(** * The further properties at work on the example inputs *)

Lemma get_api_answer_transport_failure_witness :
  exists msg,
    fst (get_api_answer example_process (fun _ => GetRaises connection_refused)
           (VInt 1000))
    = Raise (Exn ConnectionError msg (Some connection_refused))
    /\ Contains ENDPOINT msg
    /\ Contains "Connection refused" msg.
Proof.
  exact (get_api_answer_transport_failure example_process
           (fun _ => GetRaises connection_refused) (VInt 1000)
           connection_refused eq_refl).
Defined.

Lemma check_response_errors_witness :
  check_response (VDict [("current_date", VInt 2000)])
  = Raise (Exn KeyError "Ключа homeworks нет в полученных данных" None).
Proof.
  exact (check_response_errors (VDict [("current_date", VInt 2000)]) eq_refl).
Defined.

Lemma parse_status_error_class_witness :
  parse_status example_process (VDict unhashable_homework)
  = Raise (Exn TypeError "unhashable type: 'list'" None)
  /\ Exn TypeError "unhashable type: 'list'" None
     = Exn TypeError ("unhashable type: '" ++ type_name (VList []) ++ "'") None.
Proof.
  split; [reflexivity|].
  exact (parse_status_error_class example_process (VDict unhashable_homework)
           (Exn TypeError "unhashable type: 'list'" None) eq_refl).
Defined.

Lemma main_Bot_raises_witness :
  main example_process
    {| time_time := 1000;
       telegram_Bot := Raise (Exn (OtherException "InvalidToken")
                                  "Invalid token" None) |}
    [answers delivers example_answer]
  = (Raise (Exn (OtherException "InvalidToken") "Invalid token" None), []).
Proof.
  exact (main_Bot_raises example_process
           {| time_time := 1000;
              telegram_Bot := Raise (Exn (OtherException "InvalidToken")
                                         "Invalid token" None) |}
           [answers delivers example_answer]
           (Exn (OtherException "InvalidToken") "Invalid token" None)
           eq_refl eq_refl eq_refl eq_refl).
Defined.

Lemma loop_pacing_witness :
  length (sleeps (snd (loop example_process
                         [answers_status delivers 503;
                          answers delivers example_answer]
                         example_state)))
  = 2.
Proof.
  exact (proj2 (proj2 (proj2 (loop_pacing example_process
                                [answers_status delivers 503;
                                 answers delivers example_answer]
                                example_state)))
           _ eq_refl).
Defined.

Lemma cycle_success_witness :
  exists t,
    cycle example_process (answers delivers example_answer) example_state
    = (Ret {| current_timestamp := VInt 2000; error_cache := "" |}, t)
    /\ sent t
       = ["Изменился статус проверки работы " ++ dquote ++ "hw1" ++ dquote
          ++ ". " ++ "Работа взята на проверку ревьюером."].
Proof.
  apply (cycle_success example_process (answers delivers example_answer)
           example_state example_answer [VDict example_homework]
           eq_refl eq_refl).
  intros homework rest [= <- <-]. eexists. split; reflexivity.
Defined.

Lemma main_from_date_is_int_witness :
  isinstance_int
    (current_timestamp
       {| current_timestamp := VInt 1000; error_cache := "" |})
  = true.
Proof.
  exact (proj2 (main_from_date_is_int example_process example_startup
                  [answers delivers
                     [("homeworks", VList []); ("current_date", VStr "2000")]])
           _ eq_refl).
Defined.

Lemma main_error_cache_witness :
  example_failure = ""
  \/ exists error,
       is_generic error = true
       /\ example_failure = failure_message example_process error
       /\ In example_failure
            (sent (snd (main example_process example_startup
                          [answers_status delivers 503]))).
Proof.
  exact (main_error_cache example_process example_startup
           [answers_status delivers 503]
           {| current_timestamp := VInt 1000; error_cache := example_failure |}
           eq_refl).
Defined.

Lemma cycle_raises_witness :
  exists error t0,
    try_block example_process (answers_status refused 503) (VInt 1000)
    = (Raise error, t0)
    /\ is_BotError error || is_DateError error = false
    /\ ((is_Exception error = false
         /\ Exn BotError ("Ошибка при отправке сообщения ["
                          ++ example_failure ++ "]")
                (Some (Exn TelegramError
                           "Forbidden: bot was blocked by the user" None))
            = error)
        \/ (is_Exception error = true
            /\ "" <> failure_message example_process error
            /\ fst (send_message example_process refused
                      (failure_message example_process error))
               = Raise (Exn BotError
                            ("Ошибка при отправке сообщения ["
                             ++ example_failure ++ "]")
                            (Some (Exn TelegramError
                                       "Forbidden: bot was blocked by the user"
                                       None))))).
Proof.
  exact (cycle_raises example_process (answers_status refused 503)
           example_state _ _ eq_refl).
Defined.

Lemma first_failure_is_sent_witness :
  times_sent example_failure
    (snd (cycle example_process (answers_status delivers 503) example_state))
  = 1.
Proof.
  exact (first_failure_is_sent example_process (answers_status delivers 503)
           example_state example_failure eq_refl
           (example_failure_fails_with delivers (VInt 1000))).
Defined.
